(** * aasist_bridge.py: text/audio fusion scorer

    A shallow embedding of [aasist_bridge.py] and the properties of its
    scoring pipeline.

    - Python [float] is IEEE-754 binary64 and a [torch.FloatTensor] holds
      binary32 values.  Both are modelled by [spec_float] with the
      operations of [SpecFloat] (round to nearest, ties to even) at
      precision 53/1024 and 24/128.
    - Python [str] is modelled by [string]; substring tests against ASCII
      needles are insensitive to the encoding of the other characters.
      [str.lower] is a parameter of the development.
    - The library kernels whose results the source does not determine
      (random draws, [np.sin], [np.exp], [torch.var], [F.softmax], the
      forward pass of a trained network) are parameters as well. *)

From Stdlib Require Import ZArith List Bool String Ascii Lia.
From Stdlib Require Import PrimFloat SpecFloat FloatOps.
Import ListNotations.

Set Warnings "-inexact-float".
Local Open Scope Z_scope.

(** ** Floating-point formats *)

Module B64.
Definition prec : Z := 53.
Definition emax : Z := 1024.

Definition add := SFadd prec emax.
Definition sub := SFsub prec emax.
Definition mul := SFmul prec emax.
Definition div := SFdiv prec emax.
Definition opp := SFopp.
Definition ltb := SFltb.
Definition leb := SFleb.

(** [float(z)] for a Python integer (exact when [|z| < 2^53]). *)
Definition of_int (z : Z) : spec_float := binary_normalize prec emax z 0 false.

(** A literal of the source, read as the nearest binary64 value. *)
Definition lit (x : PrimFloat.float) : spec_float := Prim2SF x.
End B64.

Module F32.
Definition prec : Z := 24.
Definition emax : Z := 128.

Definition sub := SFsub prec emax.
Definition mul := SFmul prec emax.
Definition opp := SFopp.
Definition ltb := SFltb.

(** Rounding of any finite value [m * 2^e] into the format. *)
Definition round (x : spec_float) : spec_float :=
  match x with
  | S754_finite s m e => binary_normalize prec emax (cond_Zopp s (Zpos m)) e s
  | _ => x
  end.

Definition of_int (z : Z) : spec_float := binary_normalize prec emax z 0 false.
End F32.

(** Widening of a binary32 value to binary64 ([Tensor.item()]): exact, the
    mantissa is re-aligned to 53 bits. *)
Definition f32_to_b64 (x : spec_float) : spec_float :=
  match x with
  | S754_finite s m e => binary_normalize B64.prec B64.emax (cond_Zopp s (Zpos m)) e s
  | _ => x
  end.

Definition c0_0 : spec_float := Eval vm_compute in B64.lit 0.0%float.
Definition c0_3 : spec_float := Eval vm_compute in B64.lit 0.3%float.
Definition c0_7 : spec_float := Eval vm_compute in B64.lit 0.7%float.
Definition c1_0 : spec_float := Eval vm_compute in B64.lit 1.0%float.

(** ** Predicates on floating-point values *)

(** [x] is a zero, a finite value or an infinity of sign [sx]. *)
Definition has_sign (sx : bool) (x : spec_float) : bool :=
  match x with
  | S754_zero s | S754_infinity s | S754_finite s _ _ => Bool.eqb s sx
  | S754_nan => false
  end.

(** [0.0 <= x]: a zero of either sign, or a positive value. *)
Definition nonneg (x : spec_float) : bool :=
  match x with
  | S754_zero _ => true
  | _ => has_sign false x
  end.

Definition is_nan (x : spec_float) : bool :=
  match x with
  | S754_nan => true
  | _ => false
  end.

(** [0.0 <= x <= 1.0] *)
Definition in_unit (x : spec_float) : bool :=
  B64.leb c0_0 x && B64.leb x c1_0.

(** [min(a, b)] of Python on two floats. *)
Definition b64_min (a b : spec_float) : spec_float :=
  if B64.ltb b a then b else a.

(** ** Python numbers

    [suspicion_score] starts as the integer [0] and becomes a float at the
    first [+= weight]; both kinds of number are kept apart. *)

Inductive pynum : Type :=
| PyInt (z : Z)
| PyFloat (f : spec_float).

Definition to_float (n : pynum) : spec_float :=
  match n with
  | PyInt z => B64.of_int z
  | PyFloat f => f
  end.

Definition py_add (a b : pynum) : pynum :=
  match a, b with
  | PyInt x, PyInt y => PyInt (x + y)
  | _, _ => PyFloat (B64.add (to_float a) (to_float b))
  end.

Definition py_mul (a b : pynum) : pynum :=
  match a, b with
  | PyInt x, PyInt y => PyInt (x * y)
  | _, _ => PyFloat (B64.mul (to_float a) (to_float b))
  end.

(** [a < b] *)
Definition py_lt (a b : pynum) : bool :=
  match a, b with
  | PyInt x, PyInt y => x <? y
  | _, _ => B64.ltb (to_float a) (to_float b)
  end.

(** [min(a, b)]: the first argument is kept unless the second is smaller. *)
Definition py_min (a b : pynum) : pynum :=
  if py_lt b a then b else a.

(** ** Python strings *)

Local Open Scope string_scope.

(** [needle in hay] *)
Fixpoint contains (needle hay : string) : bool :=
  prefix needle hay ||
  match hay with
  | EmptyString => false
  | String _ rest => contains needle rest
  end.

(** [s.replace(old, new)] for a non-empty [old]: occurrences are replaced
    from left to right without overlap; [skip] counts the characters of a
    replaced occurrence still to be dropped. *)
Fixpoint replace_from (old new : string) (skip : nat) (s : string) : string :=
  match s with
  | EmptyString => EmptyString
  | String c rest =>
      match skip with
      | S k => replace_from old new k rest
      | O =>
          if prefix old s
          then new ++ replace_from old new (String.length old - 1) rest
          else String c (replace_from old new O rest)
      end
  end.

Definition replace (old new s : string) : string := replace_from old new O s.

(** [s.split(sep)] for a non-empty [sep]; [cur] is the piece being read. *)
Fixpoint split_from (sep : string) (skip : nat) (cur s : string) : list string :=
  match s with
  | EmptyString => [cur]
  | String c rest =>
      match skip with
      | S k => split_from sep k cur rest
      | O =>
          if prefix sep s
          then cur :: split_from sep (String.length sep - 1) EmptyString rest
          else split_from sep O (cur ++ String c EmptyString) rest
      end
  end.

Definition split (sep s : string) : list string := split_from sep O EmptyString s.

(** [str.lower] restricted to ASCII letters; the instance used to run the
    model on concrete ASCII texts. *)
Definition ascii_lower_char (c : ascii) : ascii :=
  let n := nat_of_ascii c in
  if (65 <=? n)%nat && (n <=? 90)%nat then ascii_of_nat (n + 32) else c.

Fixpoint ascii_lower (s : string) : string :=
  match s with
  | EmptyString => EmptyString
  | String c rest => String (ascii_lower_char c) (ascii_lower rest)
  end.

(** ** Results

    A detection result is the dictionary handed to [json.dumps]; the order
    of the keys is the order of insertion. *)

Inductive pyval : Type :=
| VBool (b : bool)
| VNum (n : pynum)
| VStr (s : string).

Definition dict : Type := list (string * pyval).

Fixpoint lookup (key : string) (d : dict) : option pyval :=
  match d with
  | [] => None
  | (k, v) :: rest => if String.eqb k key then Some v else lookup key rest
  end.

(** [s.endswith(suffix)] *)
Definition endswith (suffix s : string) : bool :=
  let n := String.length s in
  let k := String.length suffix in
  (k <=? n)%nat && String.eqb (substring (n - k) k s) suffix.

(** ** Static tables of the source *)

Definition scam_keywords : list string :=
  ["microsoft"; "virus"; "irs"; "tax"; "police"; "bank"; "urgent"; "immediately"].

Definition scam_patterns : list (string * spec_float) :=
  [ ("microsoft tech support", B64.lit 0.8%float);
    ("computer virus",         B64.lit 0.7%float);
    ("computer.*compromised",  B64.lit 0.7%float);
    ("irs",                    B64.lit 0.8%float);
    ("tax.*owe",               B64.lit 0.7%float);
    ("warrant.*arrest",        B64.lit 0.9%float);
    ("pay.*immediately",       B64.lit 0.6%float);
    ("bank account",           B64.lit 0.5%float);
    ("social security",        B64.lit 0.6%float);
    ("suspicious activity",    B64.lit 0.4%float);
    ("gift card",              B64.lit 0.6%float);
    ("remote access",          B64.lit 0.5%float);
    ("teamviewer",             B64.lit 0.7%float);
    ("urgent",                 B64.lit 0.3%float);
    ("immediately",            B64.lit 0.3%float) ].

Definition authorities : list string :=
  ["microsoft"; "irs"; "government"; "police"; "bank"; "fbi"].

(** [np.pi] *)
Definition np_pi : spec_float :=
  Eval vm_compute in B64.lit 3.141592653589793%float.

(** [audio_length = 32000  # 2 seconds at 16kHz] *)
Definition audio_length : Z := 32000.

(** ** numpy arrays (one dimension, binary64) *)

Definition ndarray : Type := list spec_float.

(** Element-wise operation on two arrays under numpy's broadcasting rule for
    one dimension: equal lengths, or one side of length one. [None] is the
    [ValueError] raised on any other pair of shapes. *)
Definition np_binop (f : spec_float -> spec_float -> spec_float)
    (a b : ndarray) : option ndarray :=
  if (List.length a =? List.length b)%nat
  then Some (map (fun xy => f (fst xy) (snd xy)) (combine a b))
  else
    match a, b with
    | [x], _ => Some (map (fun y => f x y) b)
    | _, [y] => Some (map (fun x => f x y) a)
    | _, _ => None
    end.

(** [a += b]: the result must have the shape of [a]. *)
Definition np_iadd (a b : ndarray) : option ndarray :=
  if (List.length a =? List.length b)%nat
  then Some (map (fun xy => B64.add (fst xy) (snd xy)) (combine a b))
  else
    match b with
    | [y] => Some (map (fun x => B64.add x y) a)
    | _ => None
    end.

(** [k * a] and [a * k] for a scalar [k] *)
Definition np_scale (k : pynum) (a : ndarray) : ndarray :=
  map (fun x => B64.mul (to_float k) x) a.

Definition np_scale_r (a : ndarray) (k : pynum) : ndarray :=
  map (fun x => B64.mul x (to_float k)) a.

(** [np.linspace(start, stop, num)] as numpy computes it for [num > 1] and a
    non-zero step: [arange(num) * step + start] with the last sample set to
    [stop]. *)
Definition np_linspace (start stop : pynum) (num : nat) : ndarray :=
  let div := B64.of_int (Z.of_nat num - 1) in
  let delta := B64.sub (to_float stop) (to_float start) in
  let step := B64.div delta div in
  map (fun i =>
         if (1 <? num)%nat && (i =? num - 1)%nat
         then to_float stop
         else B64.add (B64.mul (B64.of_int (Z.of_nat i)) step) (to_float start))
      (seq 0 num).

(** ** torch tensors (two dimensions, binary32) *)

Definition tensor : Type := list (list spec_float).

(** [torch.clamp(x, lo, hi)] on one entry; a NaN stays a NaN. *)
Definition torch_clamp (x lo hi : spec_float) : spec_float :=
  match x with
  | S754_nan => S754_nan
  | _ => if F32.ltb x lo then lo else if F32.ltb hi x then hi else x
  end.

(** [t[i, j]]; [None] is the [IndexError]. *)
Definition tensor_get (t : tensor) (i j : nat) : option spec_float :=
  match nth_error t i with
  | Some row => nth_error row j
  | None => None
  end.

(** ** The program *)

Section Bridge.

(** [str.lower] *)
Variable lower : string -> string.

(** State of the global random generators of numpy and torch. *)
Variable rng : Type.
(** One standard normal draw of numpy's generator. *)
Variable standard_normal : rng -> spec_float * rng.
(** [torch.randn(rows, cols)] *)
Variable torch_randn : nat -> nat -> rng -> tensor * rng.
(** [np.sin] and [np.exp] on one sample. *)
Variables np_sin np_exp : spec_float -> spec_float.
(** [torch.var] of one row (unbiased, binary32). *)
Variable torch_var : list spec_float -> spec_float.
(** [F.softmax(_, dim=1)]: the entry computed for a logit of a row. *)
Variable softmax_entry : list spec_float -> spec_float -> spec_float.
(** A trained AASIST network and its forward pass, which may raise. *)
Variable network : Type.
Variable forward : network -> tensor -> string + (tensor * tensor).

(** Capability flags set when the module is imported. *)
Variables TORCH_AVAILABLE AASIST_AVAILABLE : bool.

(** The three ways out of the [try] block of [load_model]. *)
Inductive load_outcome : Type :=
| StateLoaded (net : network)
| CheckpointMissing
| LoadRaised.

(** What the file system and [torch.load] give for a model path and a
    configuration path. *)
Variable load_checkpoint : string -> option string -> load_outcome.

(** *** State and exceptions

    [inferences] is a ghost counter of the calls [self.model(...)]. *)

Record world : Type := { gen : rng; inferences : nat }.

Definition M (A : Type) : Type := world -> (string + A) * world.

Definition ret {A : Type} (a : A) : M A := fun w => (inr a, w).

Definition raise {A : Type} (msg : string) : M A := fun w => (inl msg, w).

Definition bind {A B : Type} (m : M A) (k : A -> M B) : M B :=
  fun w =>
    match m w with
    | (inl msg, w') => (inl msg, w')
    | (inr a, w') => k a w'
    end.

Definition try_except {A : Type} (body : M A) (handler : string -> M A) : M A :=
  fun w =>
    match body w with
    | (inl msg, w') => handler msg w'
    | (inr a, w') => (inr a, w')
    end.

Definition with_rng {A : Type} (draw : rng -> A * rng) : M A :=
  fun w =>
    let (a, g) := draw (gen w) in
    (inr a, {| gen := g; inferences := inferences w |}).

Definition count_inference : M unit :=
  fun w => (inr tt, {| gen := gen w; inferences := S (inferences w) |}).

Definition or_raise {A : Type} (msg : string) (o : option A) : M A :=
  match o with
  | Some a => ret a
  | None => raise msg
  end.

Notation "x <- m ;; k" := (bind m (fun x => k))
  (at level 61, m at next level, right associativity).

(** *** Random arrays *)

(** [np.random.normal(loc, scale, n)]: [loc + scale * z] per sample. *)
Fixpoint draw_normal (loc scale : spec_float) (n : nat) (g : rng)
  : ndarray * rng :=
  match n with
  | O => ([], g)
  | S k =>
      let (z, g1) := standard_normal g in
      let (rest, g2) := draw_normal loc scale k g1 in
      (B64.add loc (B64.mul scale z) :: rest, g2)
  end.

Definition np_random_normal (loc scale : pynum) (n : nat) : M ndarray :=
  with_rng (draw_normal (to_float loc) (to_float scale) n).

Definition shape_error : string :=
  "operands could not be broadcast together".

(** *** MockAASISTModel.__call__ *)

Definition MockAASISTModel_call (audio_tensor : tensor) : M (tensor * tensor) :=
  let batch_size := List.length audio_tensor in
  mock_features <- with_rng (torch_randn batch_size 160) ;;
  let variance := map torch_var audio_tensor in
  let spoof_logit :=
    map (fun v =>
           torch_clamp (F32.sub (F32.mul v (F32.of_int 5)) (F32.of_int 2))
                       (F32.of_int (-2)) (F32.of_int 3))
        variance in
  let bonafide_logit :=
    map (fun s => F32.mul (F32.opp s) (F32.round (B64.lit 0.8%float)))
        spoof_logit in
  let mock_logits :=
    map (fun bs => [fst bs; snd bs]) (combine bonafide_logit spoof_logit) in
  ret (mock_features, mock_logits).

(** *** AASISTBridge *)

Inductive classifier : Type :=
| Mock
| Real (net : network).

Record AASISTBridge : Type :=
  { model : option classifier;
    model_loaded : bool;
    use_mock : bool }.

Definition load_mock_model (self : AASISTBridge) : bool * AASISTBridge :=
  if negb TORCH_AVAILABLE then (false, self)
  else (true, {| model := Some Mock; model_loaded := true; use_mock := true |}).

(** The network built before the checkpoint is read is replaced by
    [load_mock_model] on both failing exits, so it is not recorded. *)
Definition load_model (self : AASISTBridge) (model_path : string)
    (config_path : option string) : bool * AASISTBridge :=
  if negb TORCH_AVAILABLE || negb AASIST_AVAILABLE then load_mock_model self
  else
    match load_checkpoint model_path config_path with
    | StateLoaded net =>
        (true, {| model := Some (Real net); model_loaded := true; use_mock := false |})
    | CheckpointMissing => load_mock_model self
    | LoadRaised => load_mock_model self
    end.

(** [AASISTBridge(model_path, config_path)]; [None] and the empty string
    are false in a condition. *)
Definition AASISTBridge__init__ (model_path config_path : option string) : AASISTBridge :=
  let self := {| model := None; model_loaded := false; use_mock := false |} in
  match model_path with
  | Some path =>
      if negb (String.eqb path "") && negb (String.eqb path "null")
      then snd (load_model self path config_path)
      else snd (load_mock_model self)
  | None => snd (load_mock_model self)
  end.

(** *** generate_synthetic_audio_from_text *)

Definition generate_synthetic_audio_from_text (text : string) : M ndarray :=
  let n := Z.to_nat audio_length in
  let scam_score :=
    Z.of_nat (List.length
      (filter (fun keyword => contains (lower keyword) (lower text)) scam_keywords)) in
  if (0 <? scam_score)%Z then
    let base_variance := PyFloat (B64.lit 0.3%float) in
    base_audio <- np_random_normal (PyInt 0) base_variance n ;;
    let t := np_linspace (PyInt 0) (PyInt 2) n in
    let carrier :=
      np_scale (PyFloat (B64.lit 0.1%float))
        (map np_sin
           (np_scale (py_mul (py_mul (PyInt 2) (PyFloat np_pi)) (PyInt 100)) t)) in
    let decay := map np_exp (np_scale_r (map B64.opp t) (PyInt 2)) in
    artifacts <- or_raise shape_error (np_binop B64.mul carrier decay) ;;
    base_audio <- or_raise shape_error (np_iadd base_audio artifacts) ;;
    noise <- np_random_normal (PyInt 0) (PyInt 1) n ;;
    let high_freq_noise := np_scale (PyFloat (B64.lit 0.05%float)) noise in
    base_audio <- or_raise shape_error (np_iadd base_audio high_freq_noise) ;;
    ret base_audio
  else
    let base_variance := PyFloat (B64.lit 0.15%float) in
    base_audio <- np_random_normal (PyInt 0) base_variance n ;;
    let t := np_linspace (PyInt 0) (PyInt 2) n in
    let natural_variation :=
      np_scale (PyFloat (B64.lit 0.05%float))
        (map np_sin
           (np_scale (py_mul (py_mul (PyInt 2) (PyFloat np_pi)) (PyFloat (B64.lit 0.5%float))) t)) in
    base_audio <- or_raise shape_error (np_iadd base_audio natural_variation) ;;
    ret base_audio.

(** *** analyze_text_patterns *)

(** The test of the loop body for one pattern. *)
Definition pattern_hit (text_lower pattern : string) : bool :=
  contains (replace ".*" " " pattern) text_lower
  || existsb (fun word => contains word text_lower) (split ".*" pattern).

Definition authority_hit (text_lower : string) : bool :=
  existsb (fun auth => contains auth text_lower) authorities.

(** The [for] loop over a table of patterns, from a starting score. *)
Definition pattern_pass (text_lower : string)
    (patterns : list (string * spec_float)) (suspicion_score : pynum) : pynum :=
  fold_left
    (fun score pw =>
       if pattern_hit text_lower (fst pw)
       then py_add score (PyFloat (snd pw))
       else score)
    patterns suspicion_score.

Definition analyze_text_patterns (text : string) : pynum :=
  let text_lower := lower text in
  let suspicion_score := pattern_pass text_lower scam_patterns (PyInt 0) in
  let suspicion_score :=
    if authority_hit text_lower
    then py_add suspicion_score (PyFloat (B64.lit 0.3%float))
    else suspicion_score in
  py_min suspicion_score (PyFloat (B64.lit 1.0%float)).

(** *** detect_deepfake *)

(** [self.model(audio_tensor)] *)
Definition call_model (self : AASISTBridge) (audio_tensor : tensor)
  : M (tensor * tensor) :=
  _ <- count_inference ;;
  match model self with
  | Some Mock => MockAASISTModel_call audio_tensor
  | Some (Real net) =>
      match forward net audio_tensor with
      | inl msg => raise msg
      | inr out => ret out
      end
  | None => raise "'NoneType' object is not callable"
  end.

Definition F_softmax (output : tensor) : tensor :=
  map (fun row => map (softmax_entry row) row) output.

(** [t[i, j].item()] *)
Definition item (t : tensor) (i j : nat) : M spec_float :=
  x <- or_raise "index out of range" (tensor_get t i j) ;;
  ret (f32_to_b64 x).

(** Line 149 of the source. *)
Definition fuse (spoof_prob text_suspicion : pynum) : pynum :=
  py_min
    (py_add (py_mul spoof_prob (PyFloat (B64.lit 0.3%float)))
            (py_mul text_suspicion (PyFloat (B64.lit 0.7%float))))
    (PyFloat (B64.lit 1.0%float)).

Definition not_loaded_result : dict :=
  [ ("is_deepfake", VBool false);
    ("confidence", VNum (PyFloat (B64.lit 0.0%float)));
    ("method", VStr "model_not_loaded");
    ("error", VStr "AASIST model not loaded") ].

Definition detect_deepfake (self : AASISTBridge) (text_context : string) : M dict :=
  if negb (model_loaded self) then ret not_loaded_result
  else
    try_except
      (audio_data <- generate_synthetic_audio_from_text text_context ;;
       let audio_tensor : tensor := [map F32.round audio_data] in
       out <- call_model self audio_tensor ;;
       let probabilities := F_softmax (snd out) in
       spoof_prob <- item probabilities 0 1 ;;
       bonafide_prob <- item probabilities 0 0 ;;
       let text_suspicion := analyze_text_patterns text_context in
       let combined_confidence := fuse (PyFloat spoof_prob) text_suspicion in
       let method :=
         (if use_mock self then "aasist_mock_model" else "aasist_neural_network")
         ++ "_with_text_analysis" in
       ret [ ("is_deepfake", VBool (py_lt (PyFloat (B64.lit 0.5%float)) combined_confidence));
             ("confidence", VNum combined_confidence);
             ("method", VStr method);
             ("audio_spoof_prob", VNum (PyFloat spoof_prob));
             ("audio_bonafide_prob", VNum (PyFloat bonafide_prob));
             ("text_suspicion", VNum text_suspicion);
             ("model_type", VStr (if use_mock self then "mock" else "real")) ])
      (fun e =>
         ret [ ("is_deepfake", VBool false);
               ("confidence", VNum (PyFloat (B64.lit 0.0%float)));
               ("method", VStr "inference_error");
               ("error", VStr e) ]).

(** *** main

    [main] prints one object with [json.dumps]; the model returns that
    object. [sys.argv] is the list of arguments, the script name first. *)

(** What the [status] command reads from torch, the interpreter and the
    file system. *)
Variable cuda_is_available : bool.
Variables sys_version os_getcwd : string.
Variable aasist_path_exists : bool.

(** [sys.argv[i]] where the source has checked the length. *)
Definition argv_at (argv : list string) (i : nat) : string := nth i argv "".

(** [sys.argv[i] if len(sys.argv) > i and sys.argv[i] != 'null' else None] *)
Definition optional_path (argv : list string) (i : nat) : option string :=
  if (i <? List.length argv)%nat && negb (String.eqb (argv_at argv i) "null")
  then Some (argv_at argv i)
  else None.

Definition main (argv : list string) : M dict :=
  if (List.length argv <? 2)%nat
  then ret [ ("error", VStr "No command provided") ]
  else
    let command := argv_at argv 1 in
    if String.eqb command "test" then
      let bridge := AASISTBridge__init__ None None in
      detect_deepfake bridge "Hello, how are you today?"
    else if String.eqb command "detect" then
      let model_path := optional_path argv 2 in
      let text_context :=
        if (3 <? List.length argv)%nat then argv_at argv 3 else "" in
      let config_path := optional_path argv 4 in
      let bridge := AASISTBridge__init__ model_path config_path in
      detect_deepfake bridge text_context
    else if String.eqb command "status" then
      ret [ ("torch_available", VBool TORCH_AVAILABLE);
            ("aasist_available", VBool AASIST_AVAILABLE);
            ("cuda_available",
             VBool (if TORCH_AVAILABLE then cuda_is_available else false));
            ("python_version", VStr sys_version);
            ("working_directory", VStr os_getcwd);
            ("aasist_path_exists", VBool aasist_path_exists) ]
    else ret [ ("error", VStr ("Unknown command: " ++ command)) ].

End Bridge.

Arguments gen {rng} _.
Arguments inferences {rng} _.
Arguments Build_world {rng} _ _.

(** ** Executable checks *)

(** Equality of two floating-point values as data (a NaN equals a NaN,
    the two zeros differ). *)
Definition sf_eqb (x y : spec_float) : bool :=
  match x, y with
  | S754_zero s1, S754_zero s2 => Bool.eqb s1 s2
  | S754_infinity s1, S754_infinity s2 => Bool.eqb s1 s2
  | S754_nan, S754_nan => true
  | S754_finite s1 m1 e1, S754_finite s2 m2 e2 =>
      Bool.eqb s1 s2 && Pos.eqb m1 m2 && Z.eqb e1 e2
  | _, _ => false
  end.

Definition is_float (expected : spec_float) (n : pynum) : bool :=
  match n with
  | PyFloat f => sf_eqb f expected
  | PyInt _ => false
  end.

(** [check_all P ws acc]: [P] holds of the score reached from [acc] along
    every run of the pattern loop over the weights [ws]; a weight marked
    [true] is one whose pattern is known to match, so only the branch that
    adds it is followed. *)
Fixpoint check_all (P : pynum -> bool) (ws : list (spec_float * bool))
    (acc : pynum) : bool :=
  match ws with
  | [] => P acc
  | (w, forced) :: rest =>
      (forced || check_all P rest acc)
      && check_all P rest (py_add acc (PyFloat w))
  end.

(** What [analyze_text_patterns] does after the pattern loop when an
    authority term is present. *)
Definition finish_with_bonus (score : pynum) : pynum :=
  py_min (py_add score (PyFloat (B64.lit 0.3%float))) (PyFloat (B64.lit 1.0%float)).

(** The lowered text hits no pattern of the table: neither the joined form
    nor any fragment occurs in it. *)
Definition no_pattern_occurs (text_lower : string) : bool :=
  forallb
    (fun pw =>
       negb (contains (replace ".*" " " (fst pw)) text_lower)
       && forallb (fun word => negb (contains word text_lower))
                  (split ".*" (fst pw)))
    scam_patterns.

(** The generator state after [n] standard normal draws. *)
Fixpoint skip_draws {rng : Type} (standard_normal : rng -> spec_float * rng)
    (n : nat) (g : rng) : rng :=
  match n with
  | O => g
  | S k => skip_draws standard_normal k (snd (standard_normal g))
  end.

(** [check_runs P ws hit acc]: [P] holds at the end of every run of the
    pattern loop over the weights [ws], started with score [acc]; the flag
    passed to [P] tells whether some pattern matched ([hit] before the
    run). *)
Fixpoint check_runs (P : bool -> pynum -> bool) (ws : list spec_float)
    (hit : bool) (acc : pynum) : bool :=
  match ws with
  | [] => P hit acc
  | w :: rest =>
      check_runs P rest hit acc
      && check_runs P rest true (py_add acc (PyFloat w))
  end.

(** The end of [analyze_text_patterns] from the score of the loop. *)
Definition finish (auth : bool) (score : pynum) : pynum :=
  py_min (if auth then py_add score (PyFloat (B64.lit 0.3%float)) else score)
         (PyFloat (B64.lit 1.0%float)).

(** A final score is the integer 0 when nothing matched, and a float in
    [[0.3, 1]] otherwise. *)
Definition zero_or_at_least_bonus (auth hit : bool) (score : pynum) : bool :=
  match finish auth score with
  | PyInt z => negb (auth || hit) && Z.eqb z 0
  | PyFloat f =>
      (auth || hit) && B64.leb (B64.lit 0.3%float) f && B64.leb f (B64.lit 1.0%float)
  end.

(** Some pattern of a table matches the lowered text. *)
Definition some_pattern_hit (text_lower : string)
    (patterns : list (string * spec_float)) : bool :=
  existsb (fun pw => pattern_hit text_lower (fst pw)) patterns.

(** ** The shapes of a detection result *)

Arguments model {network} _.
Arguments model_loaded {network} _.
Arguments use_mock {network} _.
Arguments Build_AASISTBridge {network} _ _ _.
Arguments Mock {network}.
Arguments Real {network} _.

(** The dictionary returned at the end of the [try] block. *)
Definition success_result (mock : bool) (spoof_prob bonafide_prob : spec_float)
    (text_suspicion : pynum) : dict :=
  let combined_confidence := fuse (PyFloat spoof_prob) text_suspicion in
  [ ("is_deepfake", VBool (py_lt (PyFloat (B64.lit 0.5%float)) combined_confidence));
    ("confidence", VNum combined_confidence);
    ("method", VStr ((if mock then "aasist_mock_model" else "aasist_neural_network")
                     ++ "_with_text_analysis"));
    ("audio_spoof_prob", VNum (PyFloat spoof_prob));
    ("audio_bonafide_prob", VNum (PyFloat bonafide_prob));
    ("text_suspicion", VNum text_suspicion);
    ("model_type", VStr (if mock then "mock" else "real")) ].

(** The dictionary returned by the [except] clause. *)
Definition inference_error_result (e : string) : dict :=
  [ ("is_deepfake", VBool false);
    ("confidence", VNum (PyFloat (B64.lit 0.0%float)));
    ("method", VStr "inference_error");
    ("error", VStr e) ].

(** The result of the [try] block from the outcome of the classifier call
    ([inl]: the call raised). *)
Definition result_of_call
    (softmax_entry : list spec_float -> spec_float -> spec_float)
    (mock : bool) (text_suspicion : pynum)
    (outcome : string + (tensor * tensor)) : dict :=
  match outcome with
  | inl msg => inference_error_result msg
  | inr out =>
      let probabilities := F_softmax softmax_entry (snd out) in
      match tensor_get probabilities 0 1, tensor_get probabilities 0 0 with
      | Some s, Some b =>
          success_result mock (f32_to_b64 s) (f32_to_b64 b) text_suspicion
      | _, _ => inference_error_result "index out of range"
      end
  end.

(** The verdict of a result that carries confidence [c] is [0.5 < c]. *)
Definition verdict_matches (r : dict) (c : spec_float) : Prop :=
  lookup "confidence" r = Some (VNum (PyFloat c))
  /\ lookup "is_deepfake" r = Some (VBool (B64.ltb (B64.lit 0.5%float) c)).

(** The logits of the substitute classifier in the words of the
    specification: [spoof_logit = clamp(variance*5 - 2, -2, 3)] and
    [bonafide_logit = -0.8 * spoof_logit], stacked as the row
    (bonafide, spoof). *)
Definition spec_spoof_logit (variance : spec_float) : spec_float :=
  torch_clamp (F32.sub (F32.mul variance (F32.of_int 5)) (F32.of_int 2))
              (F32.of_int (-2)) (F32.of_int 3).

Definition spec_bonafide_logit (variance : spec_float) : spec_float :=
  F32.mul (F32.round (B64.opp (B64.lit 0.8%float))) (spec_spoof_logit variance).

Definition spec_mock_logits (variance : spec_float) : list spec_float :=
  [spec_bonafide_logit variance; spec_spoof_logit variance].

(** ** A small environment to run the program in

    Deterministic stand-ins for the library kernels: they fix the shapes the
    kernels return, not their values. *)

Module Demo.

Definition rng : Type := N.

Definition standard_normal (g : rng) : spec_float * rng :=
  (B64.div (B64.of_int (Z.of_N (g mod 9) - 4)) (B64.of_int 4),
   ((g * 75 + 74) mod 65537)%N).

Definition torch_randn (rows cols : nat) (g : rng) : tensor * rng :=
  (repeat (repeat (S754_zero false) cols) rows, N.succ g).

Definition np_sin (x : spec_float) : spec_float := x.
Definition np_exp (x : spec_float) : spec_float := B64.add (B64.lit 1.0%float) x.

Definition torch_var (row : list spec_float) : spec_float :=
  F32.round (B64.lit 0.4%float).

Definition softmax_entry (row : list spec_float) (x : spec_float) : spec_float :=
  F32.round (B64.lit 0.5%float).

Definition network : Type := unit.

Definition forward (net : network) (x : tensor) : string + (tensor * tensor) :=
  inl "no trained network in this environment"%string.

Definition load_checkpoint (model_path : string) (config_path : option string)
  : load_outcome network :=
  CheckpointMissing network.

Definition start : world rng := {| gen := 1%N; inferences := O |}.

(** [AASISTBridge()] with torch importable or not. *)
Definition bridge (torch_available : bool) : AASISTBridge network :=
  AASISTBridge__init__ network torch_available false load_checkpoint None None.

Definition detect (torch_available : bool) (text : string) : M rng dict :=
  detect_deepfake ascii_lower rng standard_normal torch_randn np_sin np_exp
    torch_var softmax_entry network forward (bridge torch_available) text.

End Demo.

(** The same environment with a checkpoint that loads: a network that
    answers every waveform with the logits (0, 0), or raises when it is
    marked broken. *)

Module DemoReal.

Definition network : Type := bool.

Definition forward (broken : network) (x : tensor) : string + (tensor * tensor) :=
  if broken then inl "forward failed"%string
  else inr ([], [[S754_zero false; S754_zero false]]).

Definition load_checkpoint (model_path : string) (config_path : option string)
  : load_outcome network :=
  if String.eqb model_path "broken.pth" then StateLoaded network true
  else if String.eqb model_path "missing.pth" then CheckpointMissing network
  else StateLoaded network false.

Definition bridge (model_path : option string) : AASISTBridge network :=
  AASISTBridge__init__ network true true load_checkpoint model_path None.

Definition detect (model_path : option string) (text : string)
  : M Demo.rng dict :=
  detect_deepfake ascii_lower Demo.rng Demo.standard_normal Demo.torch_randn
    Demo.np_sin Demo.np_exp Demo.torch_var Demo.softmax_entry network forward
    (bridge model_path) text.

Definition main (argv : list string) : M Demo.rng dict :=
  main ascii_lower Demo.rng Demo.standard_normal Demo.torch_randn
    Demo.np_sin Demo.np_exp Demo.torch_var Demo.softmax_entry network forward
    true true load_checkpoint false "3.11" "/srv/app" false argv.

End DemoReal.

(** * Properties *)

Local Open Scope Z_scope.

(** ** Rounding keeps the sign *)

Section Rounding.

Variables prec emax : Z.

Lemma shr_1_nonneg (mrs : shr_record) :
  0 <= shr_m mrs -> 0 <= shr_m (shr_1 mrs).
Proof.
  destruct mrs as [m r s]; simpl.
  destruct m as [|p|p]; try destruct p; simpl; lia.
Qed.

Lemma iter_shr_1_nonneg (p : positive) :
  forall mrs, 0 <= shr_m mrs -> 0 <= shr_m (iter_pos shr_1 p mrs).
Proof.
  induction p as [p IH|p IH|]; intros mrs H; simpl.
  - apply IH, IH, shr_1_nonneg, H.
  - apply IH, IH, H.
  - apply shr_1_nonneg, H.
Qed.

Lemma shr_fexp_nonneg (m e : Z) (l : location) :
  0 <= m -> 0 <= shr_m (fst (shr_fexp prec emax m e l)).
Proof.
  intros H. unfold shr_fexp, shr.
  assert (H0 : 0 <= shr_m (shr_record_of_loc m l))
    by (destruct l as [|[]]; exact H).
  destruct (fexp prec emax (Zdigits2 m + e) - e); simpl; auto.
  apply iter_shr_1_nonneg, H0.
Qed.

Lemma round_nearest_even_nonneg (m : Z) (l : location) :
  0 <= m -> 0 <= round_nearest_even m l.
Proof.
  intros H. destruct l as [|[]]; simpl; try lia.
  destruct (Z.even m); lia.
Qed.

Lemma binary_round_aux_sign (sx : bool) (mx ex : Z) (lx : location) :
  0 <= mx -> has_sign sx (binary_round_aux prec emax sx mx ex lx) = true.
Proof.
  intros H. unfold binary_round_aux.
  pose proof (shr_fexp_nonneg mx ex lx H) as H1.
  destruct (shr_fexp prec emax mx ex lx) as [mrs' e']. simpl in H1.
  pose proof (shr_fexp_nonneg _ e' loc_Exact
                (round_nearest_even_nonneg _ (loc_of_shr_record mrs') H1)) as H2.
  destruct (shr_fexp prec emax _ e' loc_Exact) as [mrs'' e'']. simpl in H2.
  destruct (shr_m mrs'') as [|m|m].
  - simpl. apply eqb_reflx.
  - destruct (e'' <=? emax - prec); simpl; apply eqb_reflx.
  - lia.
Qed.

Lemma binary_round_sign (sx : bool) (mx : positive) (ex : Z) :
  has_sign sx (binary_round prec emax sx mx ex) = true.
Proof.
  unfold binary_round.
  destruct (shl_align mx ex _) as [mz ez].
  apply binary_round_aux_sign. lia.
Qed.

(** The sum of two non-negative values is non-negative (and not a NaN). *)
Lemma SFadd_nonneg (x y : spec_float) :
  nonneg x = true -> nonneg y = true -> nonneg (SFadd prec emax x y) = true.
Proof.
  destruct x as [sx|sx| |sx mx ex], y as [sy|sy| |sy my ey];
    try destruct sx; try destruct sy; simpl;
    try reflexivity; try discriminate.
  intros _ _. unfold binary_normalize.
  pose proof (binary_round_sign false
    (fst (shl_align mx ex (Z.min ex ey)) + fst (shl_align my ey (Z.min ex ey)))
    (Z.min ex ey)) as H.
  destruct (binary_round _ _ _ _ _); simpl in *; auto.
Qed.

(** A non-negative value that is not an infinity, times a positive finite
    constant, is non-negative. *)
Lemma SFmul_nonneg (x : spec_float) (m : positive) (e : Z) :
  nonneg x = true -> x <> S754_infinity false ->
  nonneg (SFmul prec emax x (S754_finite false m e)) = true.
Proof.
  destruct x as [sx|sx| |sx mx ex]; try destruct sx; simpl;
    intros Hx Hinf; try reflexivity; try discriminate; try now elim Hinf.
  assert (H : has_sign false
                (binary_round_aux prec emax false (Zpos (mx * m)) (ex + e) loc_Exact)
              = true) by (apply binary_round_aux_sign; lia).
  destruct (binary_round_aux _ _ _ _ _ _); simpl in *; auto.
Qed.

(** [(-x) * y] and [(-y) * x] are the same value. *)
Lemma SFmul_opp_swap (x y : spec_float) :
  SFmul prec emax (SFopp x) y = SFmul prec emax (SFopp y) x.
Proof.
  destruct x as [sx|sx| |sx mx ex], y as [sy|sy| |sy my ey]; simpl;
    try reflexivity; try (destruct sx, sy; reflexivity).
  rewrite (Pos.mul_comm mx my), (Z.add_comm ex ey).
  destruct sx, sy; reflexivity.
Qed.

End Rounding.

(** ** Comparison *)

Lemma SFleb_zero_nonneg (x : spec_float) :
  SFleb (S754_zero false) x = nonneg x.
Proof. destruct x as [s|s| |s m e]; try destruct s; reflexivity. Qed.

Lemma compare_cont_Eq_antisym (p q : positive) :
  Pos.compare_cont Eq q p = CompOpp (Pos.compare_cont Eq p q).
Proof. exact (eq_sym (Pos.compare_cont_antisym p q Eq)). Qed.

Lemma SFcompare_antisym (x y : spec_float) :
  SFcompare y x = option_map CompOpp (SFcompare x y).
Proof.
  destruct x as [sx|sx| |sx mx ex], y as [sy|sy| |sy my ey];
    try destruct sx; try destruct sy; simpl; try reflexivity;
    f_equal;
    rewrite (Z.compare_antisym ex ey), (compare_cont_Eq_antisym mx my);
    simpl; destruct (ex ?= ey); simpl; try reflexivity;
    destruct (Pos.compare_cont Eq mx my); reflexivity.
Qed.

(** Outside NaN, [not (y < x)] is [x <= y]. *)
Lemma SFleb_of_ltb_false (x y : spec_float) :
  is_nan x = false -> is_nan y = false ->
  SFltb y x = false -> SFleb x y = true.
Proof.
  intros Hx Hy. unfold SFltb, SFleb. rewrite (SFcompare_antisym x y).
  destruct (SFcompare x y) as [[]|] eqn:E; simpl; try reflexivity; try discriminate.
  destruct x, y; simpl in *; discriminate.
Qed.

Lemma nonneg_not_nan (x : spec_float) : nonneg x = true -> is_nan x = false.
Proof. destruct x; simpl; auto; discriminate. Qed.

(** ** Suspicion score *)

Lemma sf_eqb_eq (x y : spec_float) : sf_eqb x y = true -> x = y.
Proof.
  destruct x as [s1|s1| |s1 m1 e1], y as [s2|s2| |s2 m2 e2]; simpl;
    try discriminate; try reflexivity.
  - intros H. apply eqb_prop in H. now subst.
  - intros H. apply eqb_prop in H. now subst.
  - intros H. apply andb_prop in H as [H He]. apply andb_prop in H as [Hs Hm].
    apply eqb_prop in Hs. apply Pos.eqb_eq in Hm. apply Z.eqb_eq in He.
    now subst.
Qed.

Lemma is_float_eq (expected : spec_float) (n : pynum) :
  is_float expected n = true -> n = PyFloat expected.
Proof.
  destruct n as [z|f]; simpl; try discriminate.
  intros H. now rewrite (sf_eqb_eq _ _ H).
Qed.

Lemma scam_weights_nonneg :
  forallb (fun pw => nonneg (snd pw)) scam_patterns = true.
Proof. vm_compute. reflexivity. Qed.

Lemma py_add_float_nonneg (acc : pynum) (w : spec_float) :
  nonneg (to_float acc) = true -> nonneg w = true ->
  nonneg (to_float (py_add acc (PyFloat w))) = true.
Proof.
  intros Ha Hw. destruct acc as [z|f]; simpl; now apply SFadd_nonneg.
Qed.

(** The clamp of a non-negative score lies in [[0, 1]]. *)
Lemma py_min_one_in_unit (score : pynum) :
  nonneg (to_float score) = true ->
  in_unit (to_float (py_min score (PyFloat (B64.lit 1.0%float)))) = true.
Proof.
  intros H. unfold py_min.
  assert (E : py_lt (PyFloat (B64.lit 1.0%float)) score
              = SFltb c1_0 (to_float score)) by (destruct score; reflexivity).
  rewrite E. destruct (SFltb c1_0 (to_float score)) eqn:L.
  - vm_compute. reflexivity.
  - unfold in_unit, B64.leb.
    change c0_0 with (S754_zero false).
    rewrite SFleb_zero_nonneg, H. simpl.
    apply SFleb_of_ltb_false; auto using nonneg_not_nan.
Qed.

Section Scorer.

Variable lower : string -> string.

Lemma pattern_pass_nonneg (text_lower : string)
    (patterns : list (string * spec_float)) :
  forallb (fun pw => nonneg (snd pw)) patterns = true ->
  forall acc, nonneg (to_float acc) = true ->
  nonneg (to_float (pattern_pass text_lower patterns acc)) = true.
Proof.
  unfold pattern_pass.
  induction patterns as [|[pattern weight] rest IH]; simpl; intros Hw acc Hacc.
  - exact Hacc.
  - apply andb_prop in Hw as [Hw1 Hw2]. apply IH; [exact Hw2|].
    destruct (pattern_hit text_lower pattern); [|exact Hacc].
    now apply py_add_float_nonneg.
Qed.

(** Without a hit the loop leaves the score as it was. *)
Lemma pattern_pass_no_hit (text_lower : string)
    (patterns : list (string * spec_float)) :
  (forall pw, In pw patterns -> pattern_hit text_lower (fst pw) = false) ->
  forall acc, pattern_pass text_lower patterns acc = acc.
Proof.
  unfold pattern_pass.
  induction patterns as [|pw rest IH]; simpl; intros H acc.
  - reflexivity.
  - rewrite (H pw (or_introl eq_refl)). apply IH.
    intros pw' Hin. apply H. now right.
Qed.

(** A property checked on every run of the loop holds of the run the text
    selects. *)
Lemma check_all_sound (P : pynum -> bool) (forced : string -> bool)
    (text_lower : string) (patterns : list (string * spec_float)) :
  (forall pw, In pw patterns -> forced (fst pw) = true ->
              pattern_hit text_lower (fst pw) = true) ->
  forall acc,
    check_all P (map (fun pw => (snd pw, forced (fst pw))) patterns) acc = true ->
    P (pattern_pass text_lower patterns acc) = true.
Proof.
  unfold pattern_pass.
  induction patterns as [|[pattern weight] rest IH]; simpl; intros Hf acc H.
  - exact H.
  - apply andb_prop in H as [Hskip Hadd].
    assert (Hrest : forall pw, In pw rest -> forced (fst pw) = true ->
                               pattern_hit text_lower (fst pw) = true)
      by (intros pw Hin; apply Hf; now right).
    destruct (pattern_hit text_lower pattern) eqn:Hit.
    + now apply IH.
    + apply IH; [exact Hrest|].
      destruct (forced pattern) eqn:F; [|exact Hskip].
      pose proof (Hf (pattern, weight) (or_introl eq_refl) F) as Hit'.
      simpl in Hit'. congruence.
Qed.

Lemma irs_pattern_hit (text_lower : string) :
  contains "irs" text_lower = true -> pattern_hit text_lower "irs" = true.
Proof.
  intros H. unfold pattern_hit.
  change (replace ".*" " " "irs") with "irs"%string.
  now rewrite H.
Qed.

Lemma irs_authority_hit (text_lower : string) :
  contains "irs" text_lower = true -> authority_hit text_lower = true.
Proof.
  intros H. unfold authority_hit, authorities. simpl.
  rewrite H. now rewrite orb_true_r.
Qed.

(** C4. For every text the suspicion score lies in [[0, 1]]: the sum
    accumulated by the pattern loop and the authority bonus is
    non-negative, and the returned score is that sum clamped at 1.0. *)
Theorem analyze_text_patterns_in_unit (text : string) :
  exists sum : pynum,
    nonneg (to_float sum) = true
    /\ analyze_text_patterns lower text
       = py_min sum (PyFloat (B64.lit 1.0%float))
    /\ in_unit (to_float (analyze_text_patterns lower text)) = true.
Proof.
  unfold analyze_text_patterns. cbv zeta.
  set (looped := pattern_pass (lower text) scam_patterns (PyInt 0)).
  assert (Hloop : nonneg (to_float looped) = true)
    by (apply pattern_pass_nonneg; [exact scam_weights_nonneg | reflexivity]).
  set (sum := if authority_hit (lower text)
              then py_add looped (PyFloat (B64.lit 0.3%float)) else looped).
  assert (Hsum : nonneg (to_float sum) = true).
  { unfold sum. destruct (authority_hit (lower text)); [|exact Hloop].
    now apply py_add_float_nonneg. }
  exists sum. repeat split; auto using py_min_one_in_unit.
Qed.

(** C9. A text whose lowered form contains an authority term and in which
    no pattern occurs (neither the space-joined form nor any fragment of
    any pattern) scores exactly the authority bonus 0.3. *)
Theorem authority_alone_scores_bonus (text : string) :
  (exists auth, In auth authorities /\ contains auth (lower text) = true) ->
  (forall pattern, In pattern (map fst scam_patterns) ->
     contains (replace ".*" " " pattern) (lower text) = false
     /\ forall word, In word (split ".*" pattern) ->
                     contains word (lower text) = false) ->
  analyze_text_patterns lower text = PyFloat (B64.lit 0.3%float).
Proof.
  intros [auth [Hin Hauth]] Hnone.
  unfold analyze_text_patterns. cbv zeta.
  rewrite pattern_pass_no_hit.
  - assert (A : authority_hit (lower text) = true)
      by (apply existsb_exists; exists auth; auto).
    rewrite A. vm_compute. reflexivity.
  - intros pw Hpw. unfold pattern_hit.
    destruct (Hnone (fst pw) (in_map fst _ _ Hpw)) as [Hj Hf].
    rewrite Hj. simpl.
    destruct (existsb _ (split ".*" (fst pw))) eqn:E; [|reflexivity].
    apply existsb_exists in E as [word [Hw Hc]].
    rewrite (Hf word Hw) in Hc. discriminate.
Qed.

(** C10. A text whose lowered form contains the substring "irs", at any
    position and inside any word, scores exactly 1.0: the "irs" pattern
    and the authority bonus both apply, and whatever else is added the
    sum is clamped to 1.0. *)
Theorem irs_substring_scores_one (text : string) :
  contains "irs" (lower text) = true ->
  pattern_hit (lower text) "irs" = true
  /\ authority_hit (lower text) = true
  /\ analyze_text_patterns lower text = PyFloat (B64.lit 1.0%float).
Proof.
  intros H. split; [now apply irs_pattern_hit|].
  split; [now apply irs_authority_hit|].
  unfold analyze_text_patterns. cbv zeta.
  rewrite (irs_authority_hit _ H).
  apply is_float_eq.
  apply (check_all_sound
           (fun score => is_float (B64.lit 1.0%float) (finish_with_bonus score))
           (String.eqb "irs")).
  - intros pw _ Hf. apply String.eqb_eq in Hf. rewrite <- Hf.
    now apply irs_pattern_hit.
  - vm_compute. reflexivity.
Qed.

End Scorer.

Lemma no_pattern_occurs_spec (text_lower : string) :
  no_pattern_occurs text_lower = true ->
  forall pattern, In pattern (map fst scam_patterns) ->
    contains (replace ".*" " " pattern) text_lower = false
    /\ forall word, In word (split ".*" pattern) ->
                    contains word text_lower = false.
Proof.
  unfold no_pattern_occurs. intros H pattern Hin.
  apply in_map_iff in Hin as [pw [<- Hpw]].
  rewrite forallb_forall in H. specialize (H pw Hpw).
  apply andb_prop in H as [Hj Hf]. split.
  - now apply negb_true_iff.
  - intros word Hw. rewrite forallb_forall in Hf.
    now apply negb_true_iff, Hf.
Qed.

(** ** Synthetic signal *)

Lemma np_iadd_same_length (a b : ndarray) :
  List.length b = List.length a ->
  exists c, np_iadd a b = Some c /\ List.length c = List.length a.
Proof.
  intros H. unfold np_iadd. rewrite H, Nat.eqb_refl.
  eexists. split; [reflexivity|].
  rewrite length_map, length_combine. lia.
Qed.

Lemma np_binop_same_length (f : spec_float -> spec_float -> spec_float)
    (a b : ndarray) :
  List.length b = List.length a ->
  exists c, np_binop f a b = Some c /\ List.length c = List.length a.
Proof.
  intros H. unfold np_binop. rewrite H, Nat.eqb_refl.
  eexists. split; [reflexivity|].
  rewrite length_map, length_combine. lia.
Qed.

Lemma np_linspace_length (start stop : pynum) (num : nat) :
  List.length (np_linspace start stop num) = num.
Proof. unfold np_linspace. now rewrite length_map, length_seq. Qed.

Lemma np_scale_length (k : pynum) (a : ndarray) :
  List.length (np_scale k a) = List.length a.
Proof. apply length_map. Qed.

Lemma np_scale_r_length (a : ndarray) (k : pynum) :
  List.length (np_scale_r a k) = List.length a.
Proof. apply length_map. Qed.

Create Rewrite HintDb np_length.
#[local] Hint Rewrite length_map np_scale_length np_scale_r_length
  np_linspace_length : np_length.

Section Generator.

Variable lower : string -> string.
Variable rng : Type.
Variable standard_normal : rng -> spec_float * rng.
Variables np_sin np_exp : spec_float -> spec_float.

Lemma draw_normal_length (loc scale : spec_float) (n : nat) :
  forall g, List.length (fst (draw_normal rng standard_normal loc scale n g)) = n.
Proof.
  induction n as [|k IH]; intros g; simpl; [reflexivity|].
  destruct (standard_normal g) as [z g1].
  specialize (IH g1).
  destruct (draw_normal rng standard_normal loc scale k g1) as [rest g2].
  simpl in *. now rewrite IH.
Qed.

(** [np.random.normal] returns [n] samples and calls no classifier. *)
Lemma np_random_normal_spec (loc scale : pynum) (n : nat) (w : world rng) :
  exists a w',
    np_random_normal rng standard_normal loc scale n w = (inr a, w')
    /\ List.length a = n /\ inferences w' = inferences w.
Proof.
  unfold np_random_normal, with_rng.
  pose proof (draw_normal_length (to_float loc) (to_float scale) n (gen w)) as H.
  destruct (draw_normal _ _ _ _ n (gen w)) as [a g].
  exists a, {| gen := g; inferences := inferences w |}. auto.
Qed.

(** The generator with the sample count as a variable. *)
Lemma generate_spec (text : string) (w : world rng) :
  exists audio w',
    generate_synthetic_audio_from_text lower rng standard_normal np_sin np_exp
      text w = (inr audio, w')
    /\ List.length audio = Z.to_nat audio_length
    /\ inferences w' = inferences w.
Proof.
  unfold generate_synthetic_audio_from_text. cbv zeta.
  generalize (Z.to_nat audio_length). intros n.
  destruct (0 <? _).
  - unfold bind.
    destruct (np_random_normal_spec (PyInt 0) (PyFloat (B64.lit 0.3%float)) n w)
      as [base [w1 [-> [Lbase I1]]]].
    edestruct (np_binop_same_length B64.mul) as [artifacts [-> Lart]];
      [|simpl].
    { autorewrite with np_length. reflexivity. }
    autorewrite with np_length in Lart.
    destruct (np_iadd_same_length base artifacts) as [base1 [-> L1]];
      [congruence|simpl].
    destruct (np_random_normal_spec (PyInt 0) (PyInt 1) n w1)
      as [noise [w2 [-> [Lnoise I2]]]].
    destruct (np_iadd_same_length base1
                (np_scale (PyFloat (B64.lit 0.05%float)) noise))
      as [base2 [-> L2]]; [autorewrite with np_length; congruence|simpl].
    exists base2, w2. repeat split; congruence.
  - unfold bind.
    destruct (np_random_normal_spec (PyInt 0) (PyFloat (B64.lit 0.15%float)) n w)
      as [base [w1 [-> [Lbase I1]]]].
    edestruct (np_iadd_same_length base) as [base1 [-> L1]]; [|simpl].
    { autorewrite with np_length. congruence. }
    exists base1, w1. repeat split; congruence.
Qed.

(** C5. For every text and every state of the random source, on either
    branch, the generator returns (it does not raise) a waveform of
    exactly 32000 samples. *)
Theorem generate_returns_32000_samples (text : string) (w : world rng) :
  exists audio w',
    generate_synthetic_audio_from_text lower rng standard_normal np_sin np_exp
      text w = (inr audio, w')
    /\ Z.of_nat (List.length audio) = 32000.
Proof.
  destruct (generate_spec text w) as [audio [w' [E [L _]]]].
  exists audio, w'. split; [exact E|].
  rewrite L. reflexivity.
Qed.

End Generator.

(** ** Fusion *)

Lemma in_unit_nonneg (x : spec_float) : in_unit x = true -> nonneg x = true.
Proof.
  unfold in_unit, B64.leb. change c0_0 with (S754_zero false).
  rewrite SFleb_zero_nonneg. intros H. now apply andb_prop in H as [H _].
Qed.

Lemma in_unit_not_inf (x : spec_float) :
  in_unit x = true -> x <> S754_infinity false.
Proof. intros H ->. discriminate H. Qed.

(** Line 149 computes [min(spoof_prob * 0.3 + text_suspicion * 0.7, 1.0)] in
    binary64, whichever kind of number the text score is. *)
Lemma fuse_formula (s : spec_float) (t : pynum) :
  fuse (PyFloat s) t
  = PyFloat (b64_min (B64.add (B64.mul s (B64.lit 0.3%float))
                              (B64.mul (to_float t) (B64.lit 0.7%float)))
                     (B64.lit 1.0%float)).
Proof.
  unfold fuse, py_min, b64_min.
  destruct t as [z|f]; simpl;
    match goal with |- context [B64.ltb ?a ?b] => destruct (B64.ltb a b) end;
    reflexivity.
Qed.

Lemma fuse_in_unit (s : spec_float) (t : pynum) :
  in_unit s = true -> in_unit (to_float t) = true ->
  in_unit (to_float (fuse (PyFloat s) t)) = true.
Proof.
  intros Hs Ht. unfold fuse. apply py_min_one_in_unit.
  assert (E : forall a b : spec_float,
             to_float (py_add (py_mul (PyFloat s) (PyFloat a)) (py_mul t (PyFloat b)))
             = B64.add (B64.mul s a) (B64.mul (to_float t) b))
    by (intros a b; destruct t; reflexivity).
  rewrite E.
  change (B64.lit 0.3%float) with c0_3. change (B64.lit 0.7%float) with c0_7.
  apply SFadd_nonneg; apply SFmul_nonneg;
    auto using in_unit_nonneg, in_unit_not_inf.
Qed.

(** ** Fields of the results *)

Lemma success_fields (mock : bool) (s b : spec_float) (t : pynum) :
  let r := success_result mock s b t in
  lookup "is_deepfake" r
  = Some (VBool (py_lt (PyFloat (B64.lit 0.5%float)) (fuse (PyFloat s) t)))
  /\ lookup "confidence" r = Some (VNum (fuse (PyFloat s) t))
  /\ lookup "method" r
     = Some (VStr ((if mock then "aasist_mock_model" else "aasist_neural_network")
                   ++ "_with_text_analysis"))
  /\ lookup "audio_spoof_prob" r = Some (VNum (PyFloat s))
  /\ lookup "audio_bonafide_prob" r = Some (VNum (PyFloat b))
  /\ lookup "text_suspicion" r = Some (VNum t)
  /\ lookup "model_type" r = Some (VStr (if mock then "mock" else "real")).
Proof. repeat split. Qed.

Lemma error_has_no_probability (e : string) :
  lookup "audio_spoof_prob" (inference_error_result e) = None.
Proof. reflexivity. Qed.

Lemma not_loaded_has_no_probability :
  lookup "audio_spoof_prob" not_loaded_result = None.
Proof. reflexivity. Qed.

Lemma verdict_error (e : string) :
  verdict_matches (inference_error_result e) (B64.lit 0.0%float).
Proof. split; reflexivity. Qed.

Lemma verdict_not_loaded :
  verdict_matches not_loaded_result (B64.lit 0.0%float).
Proof. split; reflexivity. Qed.

Lemma verdict_success (mock : bool) (s b : spec_float) (t : pynum) :
  exists c, verdict_matches (success_result mock s b t) c.
Proof.
  eexists. unfold verdict_matches.
  destruct (success_fields mock s b t) as [Hv [Hc _]].
  rewrite Hv, Hc, fuse_formula. split; reflexivity.
Qed.

(** ** Substitute classifier *)

Lemma stack_logits (f : spec_float -> spec_float) (l : list spec_float) :
  map (fun bs => [fst bs; snd bs]) (combine (map f l) l)
  = map (fun x => [f x; x]) l.
Proof. induction l as [|x l IH]; simpl; [reflexivity|now rewrite IH]. Qed.

Lemma round_opp_0_8 :
  F32.round (B64.opp (B64.lit 0.8%float)) = SFopp (F32.round (B64.lit 0.8%float)).
Proof. vm_compute. reflexivity. Qed.

Section Detection.

Variable lower : string -> string.
Variable rng : Type.
Variable standard_normal : rng -> spec_float * rng.
Variable torch_randn : nat -> nat -> rng -> tensor * rng.
Variables np_sin np_exp : spec_float -> spec_float.
Variable torch_var : list spec_float -> spec_float.
Variable softmax_entry : list spec_float -> spec_float -> spec_float.
Variable network : Type.
Variable forward : network -> tensor -> string + (tensor * tensor).
Variables TORCH_AVAILABLE AASIST_AVAILABLE : bool.
Variable load_checkpoint : string -> option string -> load_outcome network.

Local Abbreviation mock_call := (MockAASISTModel_call rng torch_randn torch_var).
Local Abbreviation detect :=
  (detect_deepfake lower rng standard_normal torch_randn np_sin np_exp
     torch_var softmax_entry network forward).
Local Abbreviation generate :=
  (generate_synthetic_audio_from_text lower rng standard_normal np_sin np_exp).
Local Abbreviation bridge :=
  (AASISTBridge__init__ network TORCH_AVAILABLE AASIST_AVAILABLE load_checkpoint).

(** The logits the substitute classifier returns, one row per waveform;
    the call draws the features and counts no inference of its own. *)
Lemma mock_call_logits (audio_tensor : tensor) (w : world rng) :
  exists features w',
    mock_call audio_tensor w
    = (inr (features, map (fun row => spec_mock_logits (torch_var row)) audio_tensor),
       w')
    /\ inferences w' = inferences w.
Proof.
  unfold MockAASISTModel_call, bind, with_rng, ret.
  destruct (torch_randn (List.length audio_tensor) 160 (gen w)) as [features g].
  exists features, {| gen := g; inferences := inferences w |}.
  split; [|reflexivity]. do 2 f_equal. f_equal.
  rewrite stack_logits, !map_map.
  apply map_ext. intros row.
  unfold spec_mock_logits, spec_bonafide_logit, spec_spoof_logit.
  f_equal. unfold F32.mul, F32.opp.
  rewrite SFmul_opp_swap, round_opp_0_8. reflexivity.
Qed.

(** C6. For every batch of waveforms and every state of the random
    source, the substitute classifier returns for each waveform the row
    (bonafide_logit, spoof_logit) with
    spoof_logit = clamp(variance * 5 - 2, -2, 3) and
    bonafide_logit = -0.8 * spoof_logit: a function of the variance of
    the waveform alone. *)
Theorem mock_logits_from_variance (audio_tensor : tensor) (w : world rng) :
  exists features w',
    mock_call audio_tensor w
    = (inr (features,
            map (fun row =>
                   let variance := torch_var row in
                   let spoof_logit :=
                     torch_clamp
                       (F32.sub (F32.mul variance (F32.of_int 5)) (F32.of_int 2))
                       (F32.of_int (-2)) (F32.of_int 3) in
                   let bonafide_logit :=
                     F32.mul (F32.round (B64.opp (B64.lit 0.8%float))) spoof_logit in
                   [bonafide_logit; spoof_logit])
                audio_tensor),
       w').
Proof.
  destruct (mock_call_logits audio_tensor w) as [features [w' [E _]]].
  exists features, w'. exact E.
Qed.

(** *** Construction *)

(** A bridge is loaded exactly when torch could be imported. *)
Lemma init_loaded (model_path config_path : option string) :
  model_loaded (bridge model_path config_path) = TORCH_AVAILABLE.
Proof.
  unfold AASISTBridge__init__, load_model, load_mock_model.
  destruct TORCH_AVAILABLE, AASIST_AVAILABLE, model_path as [path|]; simpl;
    try reflexivity;
    destruct (negb (String.eqb path "") && negb (String.eqb path "null"));
    try reflexivity;
    destruct (load_checkpoint path config_path); reflexivity.
Qed.

Lemma init_no_path (config_path : option string) :
  TORCH_AVAILABLE = true ->
  bridge None config_path
  = {| model := Some Mock; model_loaded := true; use_mock := true |}.
Proof. intros H. unfold AASISTBridge__init__, load_mock_model. now rewrite H. Qed.

(** *** Steps of the monad *)

Lemma bind_inr {A B : Type} (m : M rng A) (k : A -> M rng B)
    (w w' : world rng) (a : A) :
  m w = (inr a, w') -> bind rng m k w = k a w'.
Proof. intros E. unfold bind. now rewrite E. Qed.

Lemma bind_inl {A B : Type} (m : M rng A) (k : A -> M rng B)
    (w w' : world rng) (e : string) :
  m w = (inl e, w') -> bind rng m k w = (inl e, w').
Proof. intros E. unfold bind. now rewrite E. Qed.

Lemma item_some (t : tensor) (i j : nat) (w : world rng) (x : spec_float) :
  tensor_get t i j = Some x -> item rng t i j w = (inr (f32_to_b64 x), w).
Proof. intros E. unfold item, bind, or_raise. now rewrite E. Qed.

Lemma item_none (t : tensor) (i j : nat) (w : world rng) :
  tensor_get t i j = None ->
  item rng t i j w = (inl "index out of range"%string, w).
Proof. intros E. unfold item, bind, or_raise. now rewrite E. Qed.

(** *** The three exits of [detect_deepfake]

    On the exit at the end of the [try] block the two probabilities are the
    entries [[0, 1]] and [[0, 0]] of the softmax of the classifier's logits,
    widened to binary64. *)

Lemma detect_not_loaded (self : AASISTBridge network) (text : string)
    (w : world rng) :
  model_loaded self = false ->
  detect self text w = (inr not_loaded_result, w).
Proof. intros H. unfold detect_deepfake. now rewrite H. Qed.

Lemma detect_loaded_cases (self : AASISTBridge network) (text : string)
    (w : world rng) :
  model_loaded self = true ->
  (exists e w', detect self text w = (inr (inference_error_result e), w'))
  \/ (exists logits s b w',
        tensor_get (F_softmax softmax_entry logits) 0 1 = Some s
        /\ tensor_get (F_softmax softmax_entry logits) 0 0 = Some b
        /\ detect self text w
           = (inr (success_result (use_mock self) (f32_to_b64 s) (f32_to_b64 b)
                     (analyze_text_patterns lower text)), w')).
Proof.
  intros H. unfold detect_deepfake. rewrite H.
  change (negb true) with false. cbv iota. unfold try_except.
  destruct (generate_spec lower rng standard_normal np_sin np_exp text w)
    as [audio [w1 [Eg _]]].
  rewrite (bind_inr _ _ _ _ _ Eg). cbv zeta.
  destruct (call_model rng torch_randn torch_var network forward self
              [map F32.round audio] w1) as [[e|out] w2] eqn:Ec.
  { rewrite (bind_inl _ _ _ _ _ Ec). left. now exists e, w2. }
  rewrite (bind_inr _ _ _ _ _ Ec).
  destruct (tensor_get (F_softmax softmax_entry (snd out)) 0 1) as [s|] eqn:Es.
  2:{ rewrite (bind_inl _ _ _ _ _ (item_none _ _ _ w2 Es)).
      left. now eexists _, w2. }
  rewrite (bind_inr _ _ _ _ _ (item_some _ _ _ w2 _ Es)).
  destruct (tensor_get (F_softmax softmax_entry (snd out)) 0 0) as [b|] eqn:Eb.
  2:{ rewrite (bind_inl _ _ _ _ _ (item_none _ _ _ w2 Eb)).
      left. now eexists _, w2. }
  rewrite (bind_inr _ _ _ _ _ (item_some _ _ _ w2 _ Eb)).
  right. now exists (snd out), s, b, w2.
Qed.

(** With the substitute classifier the [try] block runs to its end: one
    inference is made, and the two probabilities are the softmax entries
    of the two logits, widened to binary64. *)
Lemma detect_mock (self : AASISTBridge network) (text : string)
    (w : world rng) :
  model_loaded self = true -> model self = Some Mock ->
  exists audio w',
    let variance := torch_var (map F32.round audio) in
    let row := spec_mock_logits variance in
    detect self text w
    = (inr (success_result (use_mock self)
              (f32_to_b64 (softmax_entry row (spec_spoof_logit variance)))
              (f32_to_b64 (softmax_entry row (spec_bonafide_logit variance)))
              (analyze_text_patterns lower text)), w')
    /\ inferences w' = S (inferences w).
Proof.
  intros H Hm. unfold detect_deepfake. rewrite H.
  change (negb true) with false. cbv iota. unfold try_except.
  destruct (generate_spec lower rng standard_normal np_sin np_exp text w)
    as [audio [w1 [Eg [_ I1]]]].
  rewrite (bind_inr _ _ _ _ _ Eg). cbv zeta.
  destruct (mock_call_logits [map F32.round audio]
              {| gen := gen w1; inferences := S (inferences w1) |})
    as [features [w2 [Em I2]]].
  simpl map in Em.
  match type of Em with _ = (inr (_, ?l), _) => set (logits := l) in Em end.
  assert (Ec : call_model rng torch_randn torch_var network forward self
                 [map F32.round audio] w1 = (inr (features, logits), w2)).
  { unfold call_model. rewrite Hm.
    rewrite (bind_inr (count_inference rng) _ w1 _ tt eq_refl). exact Em. }
  rewrite (bind_inr _ _ _ _ _ Ec).
  set (variance := torch_var (map F32.round audio)) in *.
  set (row := spec_mock_logits variance) in *.
  assert (Es : tensor_get (F_softmax softmax_entry logits) 0 1
               = Some (softmax_entry row (spec_spoof_logit variance)))
    by reflexivity.
  assert (Eb : tensor_get (F_softmax softmax_entry logits) 0 0
               = Some (softmax_entry row (spec_bonafide_logit variance)))
    by reflexivity.
  clearbody logits. simpl snd.
  rewrite (bind_inr _ _ _ _ _ (item_some _ _ _ w2 _ Es)).
  rewrite (bind_inr _ _ _ _ _ (item_some _ _ _ w2 _ Eb)).
  exists audio, w2. split; [reflexivity|].
  simpl in I2. congruence.
Qed.

(** *** Properties of [detect_deepfake] *)

(** C1. In every detection result that carries an acoustic spoof
    probability and a text suspicion, both in [[0, 1]], the confidence is
    min(spoof_prob * 0.3 + text_suspicion * 0.7, 1.0) and lies in
    [[0, 1]]. *)
Theorem fused_confidence_in_unit (self : AASISTBridge network)
    (text : string) (w w' : world rng) (r : dict)
    (spoof_prob : spec_float) (text_suspicion : pynum) :
  detect self text w = (inr r, w') ->
  lookup "audio_spoof_prob" r = Some (VNum (PyFloat spoof_prob)) ->
  lookup "text_suspicion" r = Some (VNum text_suspicion) ->
  in_unit spoof_prob = true ->
  in_unit (to_float text_suspicion) = true ->
  exists confidence,
    lookup "confidence" r = Some (VNum (PyFloat confidence))
    /\ confidence
       = b64_min (B64.add (B64.mul spoof_prob (B64.lit 0.3%float))
                          (B64.mul (to_float text_suspicion) (B64.lit 0.7%float)))
                 (B64.lit 1.0%float)
    /\ in_unit confidence = true.
Proof.
  intros E Hs Ht Us Ut.
  destruct (model_loaded self) eqn:L.
  - destruct (detect_loaded_cases self text w L)
      as [[e [w1 E1]]|[logits [s [b [w1 [_ [_ E1]]]]]]];
      rewrite E1 in E; injection E as <- <-.
    + rewrite error_has_no_probability in Hs. discriminate.
    + destruct (success_fields (use_mock self) (f32_to_b64 s) (f32_to_b64 b)
                  (analyze_text_patterns lower text))
        as [_ [Hc [_ [Hs' [_ [Ht' _]]]]]].
      rewrite Hs' in Hs. rewrite Ht' in Ht.
      injection Hs as <-. injection Ht as <-.
      pose proof (fuse_in_unit _ _ Us Ut) as U.
      rewrite fuse_formula in Hc, U.
      eexists. split; [exact Hc|]. split; [reflexivity|exact U].
  - rewrite (detect_not_loaded self text w L) in E. injection E as <- <-.
    rewrite not_loaded_has_no_probability in Hs. discriminate.
Qed.

(** C2. Every detection result carries a confidence, and its verdict is
    true exactly when 0.5 < confidence; with a confidence of exactly 0.5
    the verdict is false. *)
Theorem verdict_iff_confidence_above_half (self : AASISTBridge network)
    (text : string) (w : world rng) :
  exists r w' confidence,
    detect self text w = (inr r, w')
    /\ lookup "confidence" r = Some (VNum (PyFloat confidence))
    /\ lookup "is_deepfake" r
       = Some (VBool (B64.ltb (B64.lit 0.5%float) confidence))
    /\ (confidence = B64.lit 0.5%float ->
        lookup "is_deepfake" r = Some (VBool false)).
Proof.
  assert (V : exists r w' c, detect self text w = (inr r, w')
                             /\ verdict_matches r c).
  { destruct (model_loaded self) eqn:L.
    - destruct (detect_loaded_cases self text w L)
        as [[e [w1 E1]]|[logits [s [b [w1 [_ [_ E1]]]]]]].
      + exists (inference_error_result e), w1, (B64.lit 0.0%float).
        auto using verdict_error.
      + destruct (verdict_success (use_mock self) (f32_to_b64 s) (f32_to_b64 b)
                    (analyze_text_patterns lower text)) as [c Hc].
        eauto.
    - exists not_loaded_result, w, (B64.lit 0.0%float).
      auto using detect_not_loaded, verdict_not_loaded. }
  destruct V as [r [w' [c [E [Hc Hv]]]]].
  exists r, w', c. repeat split; auto.
  intros ->. exact Hv.
Qed.

(** C3 (as the code has it). With torch available, every detection on a
    bridge constructed with no model path returns a result whose
    model_type is "mock" and whose method is
    "aasist_mock_model_with_text_analysis", which ends with
    "_with_text_analysis". *)
Theorem no_model_path_result (config_path : option string) (text : string)
    (w : world rng) :
  TORCH_AVAILABLE = true ->
  exists r w' method,
    detect (bridge None config_path) text w = (inr r, w')
    /\ lookup "model_type" r = Some (VStr "mock")
    /\ lookup "method" r = Some (VStr method)
    /\ method = "aasist_mock_model_with_text_analysis"%string
    /\ endswith "_with_text_analysis" method = true.
Proof.
  intros T. rewrite (init_no_path config_path T).
  destruct (detect_mock {| model := Some Mock; model_loaded := true;
                           use_mock := true |} text w eq_refl eq_refl)
    as [audio [w' [E _]]].
  eexists _, w', _. split; [exact E|].
  repeat split.
Qed.

(** C7. When the model is not loaded, a detection call returns at once
    the result with is_deepfake false, confidence 0.0, method
    "model_not_loaded" and an error message; the state is untouched: no
    sample is drawn and no inference is counted. *)
Theorem not_loaded_short_circuit (self : AASISTBridge network)
    (text : string) (w : world rng) :
  model_loaded self = false ->
  detect self text w
  = (inr [ ("is_deepfake", VBool false);
           ("confidence", VNum (PyFloat (B64.lit 0.0%float)));
           ("method", VStr "model_not_loaded");
           ("error", VStr "AASIST model not loaded") ],
     w).
Proof. intros H. exact (detect_not_loaded self text w H). Qed.

End Detection.

(** ** The program on concrete inputs *)

Example score_of_empty_text : analyze_text_patterns ascii_lower "" = PyInt 0.
Proof. vm_compute. reflexivity. Qed.

Example score_of_greeting :
  analyze_text_patterns ascii_lower "Hello, how are you today?" = PyInt 0.
Proof. vm_compute. reflexivity. Qed.

Example score_of_first :
  analyze_text_patterns ascii_lower "First come, first served"
  = PyFloat (B64.lit 1.0%float).
Proof. vm_compute. reflexivity. Qed.

Example score_of_scam_call :
  analyze_text_patterns ascii_lower
    "URGENT: This is the IRS calling about your tax warrant, pay immediately with a gift card"
  = PyFloat (B64.lit 1.0%float).
Proof. vm_compute. reflexivity. Qed.

Example score_of_birthday_call :
  analyze_text_patterns ascii_lower "Hi, just calling to say happy birthday"
  = PyInt 0.
Proof. vm_compute. reflexivity. Qed.

Example score_of_remote_access :
  analyze_text_patterns ascii_lower "Please allow remote access"
  = PyFloat (B64.lit 0.5%float).
Proof. vm_compute. reflexivity. Qed.

(** A run of [AASISTBridge()] in the small environment: the result in
    terms of the text score. *)
Lemma demo_run (text : string) :
  exists w',
    Demo.detect true text Demo.start
    = (inr (success_result true (B64.lit 0.5%float) (B64.lit 0.5%float)
              (analyze_text_patterns ascii_lower text)), w').
Proof.
  destruct (detect_mock ascii_lower Demo.rng Demo.standard_normal
              Demo.torch_randn Demo.np_sin Demo.np_exp Demo.torch_var
              Demo.softmax_entry Demo.network Demo.forward
              (Demo.bridge true) text Demo.start eq_refl eq_refl)
    as [audio [w' [E _]]].
  exists w'. exact E.
Qed.

(** A run that ends on the tie: spoof probability 0.5 and text suspicion 0.5
    fuse to exactly 0.5, and the verdict is false. *)
Example tie_is_not_a_detection :
  exists r w',
    Demo.detect true "Please allow remote access" Demo.start = (inr r, w')
    /\ lookup "confidence" r = Some (VNum (PyFloat (B64.lit 0.5%float)))
    /\ lookup "is_deepfake" r = Some (VBool false).
Proof.
  destruct (demo_run "Please allow remote access") as [w' E].
  eexists _, w'. split; [exact E|].
  split; vm_compute; reflexivity.
Qed.

(** C1 on a run with spoof probability 0.5 and text suspicion 0.5. *)
Lemma fused_confidence_in_unit_witness :
  exists r w' confidence,
    Demo.detect true "Please allow remote access" Demo.start = (inr r, w')
    /\ lookup "confidence" r = Some (VNum (PyFloat confidence))
    /\ in_unit confidence = true.
Proof.
  destruct (demo_run "Please allow remote access") as [w' E].
  set (r := success_result true (B64.lit 0.5%float) (B64.lit 0.5%float)
              (analyze_text_patterns ascii_lower "Please allow remote access"))
    in E.
  assert (Hs : lookup "audio_spoof_prob" r = Some (VNum (PyFloat (B64.lit 0.5%float))))
    by reflexivity.
  assert (Ht : lookup "text_suspicion" r = Some (VNum (PyFloat (B64.lit 0.5%float))))
    by (vm_compute; reflexivity).
  clearbody r. generalize E. unfold Demo.detect at 1. intros E'.
  destruct (fused_confidence_in_unit ascii_lower Demo.rng Demo.standard_normal
              Demo.torch_randn Demo.np_sin Demo.np_exp Demo.torch_var
              Demo.softmax_entry Demo.network Demo.forward
              (Demo.bridge true) "Please allow remote access" Demo.start w' r
              (B64.lit 0.5%float) (PyFloat (B64.lit 0.5%float))
              E' Hs Ht eq_refl eq_refl) as [c [Hc [_ U]]].
  exists r, w', c. split; [exact E|]. split; [exact Hc|exact U].
Defined.

(** C3 (as the code has it) on a run of [AASISTBridge()]. *)
Lemma no_model_path_result_witness :
  exists r w',
    Demo.detect true "Hello, how are you today?" Demo.start = (inr r, w')
    /\ lookup "model_type" r = Some (VStr "mock")
    /\ lookup "method" r = Some (VStr "aasist_mock_model_with_text_analysis").
Proof.
  destruct (no_model_path_result ascii_lower Demo.rng Demo.standard_normal
              Demo.torch_randn Demo.np_sin Demo.np_exp Demo.torch_var
              Demo.softmax_entry Demo.network Demo.forward true false
              Demo.load_checkpoint None "Hello, how are you today?" Demo.start
              eq_refl)
    as [r [w' [method [E [Ht [Hm [Heq _]]]]]]].
  exists r, w'. split; [exact E|]. split; [exact Ht|].
  rewrite Hm, Heq. reflexivity.
Defined.

(** C3 as stated fails: the model_type of a run on [AASISTBridge()] is the
    string "mock", not "substitute". *)
Lemma model_type_is_not_substitute :
  exists r w',
    Demo.detect true "Hello, how are you today?" Demo.start = (inr r, w')
    /\ lookup "model_type" r = Some (VStr "mock")
    /\ lookup "model_type" r <> Some (VStr "substitute").
Proof.
  destruct (demo_run "Hello, how are you today?") as [w' E].
  eexists _, w'. split; [exact E|].
  split; [reflexivity|discriminate].
Qed.

(** C7 on a bridge constructed where torch cannot be imported. *)
Lemma not_loaded_short_circuit_witness :
  model_loaded (Demo.bridge false) = false
  /\ Demo.detect false "Hello, how are you today?" Demo.start
     = (inr [ ("is_deepfake", VBool false);
              ("confidence", VNum (PyFloat (B64.lit 0.0%float)));
              ("method", VStr "model_not_loaded");
              ("error", VStr "AASIST model not loaded") ],
        Demo.start).
Proof.
  split; [reflexivity|].
  apply (not_loaded_short_circuit ascii_lower Demo.rng Demo.standard_normal
           Demo.torch_randn Demo.np_sin Demo.np_exp Demo.torch_var
           Demo.softmax_entry Demo.network Demo.forward
           (Demo.bridge false) "Hello, how are you today?" Demo.start).
  reflexivity.
Defined.

(** C9 on a text that names the FBI and nothing else of the tables. *)
Lemma authority_alone_scores_bonus_witness :
  contains "fbi" (ascii_lower "This is Agent Smith of the FBI") = true
  /\ no_pattern_occurs (ascii_lower "This is Agent Smith of the FBI") = true
  /\ analyze_text_patterns ascii_lower "This is Agent Smith of the FBI"
     = PyFloat (B64.lit 0.3%float).
Proof.
  split; [reflexivity|]. split; [vm_compute; reflexivity|].
  apply (authority_alone_scores_bonus ascii_lower).
  - exists "fbi"%string. split; [simpl; tauto|reflexivity].
  - apply no_pattern_occurs_spec. vm_compute. reflexivity.
Defined.

(** C10 on a text with "irs" inside the word "thirsty". *)
Lemma irs_substring_scores_one_witness :
  contains "irs" (ascii_lower "I am so thirsty") = true
  /\ analyze_text_patterns ascii_lower "I am so thirsty"
     = PyFloat (B64.lit 1.0%float).
Proof.
  split; [reflexivity|].
  apply (irs_substring_scores_one ascii_lower "I am so thirsty").
  reflexivity.
Defined.

(** * Further properties *)

(** ** Patterns and fragments *)

Lemma prefix_trans (a : string) :
  forall b c, prefix a b = true -> prefix b c = true -> prefix a c = true.
Proof.
  induction a as [|x a IH]; intros b c Hab Hbc; [now destruct c|].
  destruct b as [|y b]; [discriminate|].
  destruct c as [|z c]; [discriminate|].
  simpl in *.
  destruct (ascii_dec x y) as [->|]; [|discriminate].
  destruct (ascii_dec y z) as [->|]; [|discriminate].
  eauto.
Qed.

Lemma contains_nil (needle : string) :
  contains needle "" = prefix needle "".
Proof. unfold contains. apply orb_false_r. Qed.

Lemma contains_cons (needle : string) (c : ascii) (rest : string) :
  contains needle (String c rest)
  = prefix needle (String c rest) || contains needle rest.
Proof. reflexivity. Qed.

(** A text that contains a string contains each of its prefixes. *)
Lemma contains_prefix (a b : string) :
  prefix a b = true ->
  forall text, contains b text = true -> contains a text = true.
Proof.
  intros Hab. induction text as [|c rest IH]; intros H.
  - rewrite contains_nil in *. eauto using prefix_trans.
  - rewrite contains_cons in *.
    apply orb_prop in H as [H|H]; apply orb_true_iff.
    + left. eauto using prefix_trans.
    + right. auto.
Qed.

(** In every pattern of the table the first fragment starts the joined
    form. *)
Lemma first_fragment_starts_joined :
  forallb
    (fun pw =>
       match split ".*" (fst pw) with
       | [] => false
       | word :: _ => prefix word (replace ".*" " " (fst pw))
       end)
    scam_patterns = true.
Proof. vm_compute. reflexivity. Qed.

(** X1. For every pattern of the table and every text, the pattern matches
    exactly when one of its fragments occurs in the lowered text: the test
    on the space-joined form never adds a match. *)
Theorem pattern_hit_is_fragment_hit (text_lower pattern : string) :
  In pattern (map fst scam_patterns) ->
  pattern_hit text_lower pattern
  = existsb (fun word => contains word text_lower) (split ".*" pattern).
Proof.
  intros Hin. apply in_map_iff in Hin as [pw [<- Hpw]].
  pose proof first_fragment_starts_joined as H.
  rewrite forallb_forall in H. specialize (H pw Hpw).
  unfold pattern_hit.
  destruct (contains (replace ".*" " " (fst pw)) text_lower) eqn:J; [|reflexivity].
  destruct (split ".*" (fst pw)) as [|word rest]; [discriminate|].
  simpl. now rewrite (contains_prefix _ _ H _ J).
Qed.

(** A single fragment is enough: "however" contains "owe". *)
Lemma pattern_hit_is_fragment_hit_witness :
  pattern_hit "however" "tax.*owe" = true.
Proof.
  rewrite (pattern_hit_is_fragment_hit "however" "tax.*owe").
  - reflexivity.
  - simpl. tauto.
Defined.

(** ** The values of the score *)

Lemma check_runs_sound (P : bool -> pynum -> bool) (text_lower : string)
    (patterns : list (string * spec_float)) :
  forall hit acc,
    check_runs P (map snd patterns) hit acc = true ->
    P (hit || some_pattern_hit text_lower patterns)
      (pattern_pass text_lower patterns acc) = true.
Proof.
  unfold pattern_pass, some_pattern_hit.
  induction patterns as [|[pattern weight] rest IH]; simpl; intros hit acc H.
  - now rewrite orb_false_r.
  - apply andb_prop in H as [Hskip Hadd].
    destruct (pattern_hit text_lower pattern); simpl.
    + rewrite orb_true_r. specialize (IH true _ Hadd). exact IH.
    + now apply IH.
Qed.

Lemma all_runs_zero_or_at_least_bonus (auth : bool) :
  check_runs (zero_or_at_least_bonus auth) (map snd scam_patterns) false (PyInt 0)
  = true.
Proof. destruct auth; vm_compute; reflexivity. Qed.

Section ScoreValues.

Variable lower : string -> string.

(** X2. The score of a text is the integer 0 exactly when no pattern and no
    authority term matches; as soon as something matches it is a float
    between 0.3 and 1.0. *)
Theorem score_is_zero_or_at_least_bonus (text : string) :
  let matched :=
    authority_hit (lower text) || some_pattern_hit (lower text) scam_patterns in
  (matched = false -> analyze_text_patterns lower text = PyInt 0)
  /\ (matched = true ->
      exists f, analyze_text_patterns lower text = PyFloat f
                /\ B64.leb (B64.lit 0.3%float) f = true
                /\ B64.leb f (B64.lit 1.0%float) = true).
Proof.
  cbv zeta.
  pose proof (check_runs_sound _ (lower text) scam_patterns false (PyInt 0)
                (all_runs_zero_or_at_least_bonus (authority_hit (lower text))))
    as H.
  unfold zero_or_at_least_bonus, finish in H.
  unfold analyze_text_patterns. cbv zeta.
  set (auth := authority_hit (lower text)) in *.
  set (hit := some_pattern_hit (lower text) scam_patterns) in *.
  change (false || hit) with hit in H.
  destruct (py_min _ _) as [z|f]; split; intros M; rewrite M in H;
    cbn [negb andb] in H.
  - apply Z.eqb_eq in H. now subst.
  - discriminate.
  - discriminate.
  - apply andb_prop in H as [H1 H2]. eauto.
Qed.

End ScoreValues.

(** ** Random draws of the generator *)

Lemma filter_nonempty_existsb {A : Type} (f : A -> bool) (l : list A) :
  (0 <? Z.of_nat (List.length (filter f l))) = existsb f l.
Proof.
  induction l as [|x l IH]; [reflexivity|]. simpl.
  destruct (f x); [|exact IH].
  simpl List.length. apply Z.ltb_lt. lia.
Qed.

Section GeneratorDraws.

Variable lower : string -> string.
Variable rng : Type.
Variable standard_normal : rng -> spec_float * rng.
Variables np_sin np_exp : spec_float -> spec_float.

Lemma draw_normal_state (loc scale : spec_float) (n : nat) :
  forall g,
    snd (draw_normal rng standard_normal loc scale n g)
    = skip_draws standard_normal n g.
Proof.
  induction n as [|k IH]; intros g; simpl; [reflexivity|].
  destruct (standard_normal g) as [z g1]. specialize (IH g1).
  destruct (draw_normal rng standard_normal loc scale k g1) as [rest g2].
  exact IH.
Qed.

Lemma np_random_normal_state (loc scale : pynum) (n : nat) (w : world rng) :
  exists a,
    np_random_normal rng standard_normal loc scale n w
    = (inr a, {| gen := skip_draws standard_normal n (gen w);
                 inferences := inferences w |})
    /\ List.length a = n.
Proof.
  unfold np_random_normal, with_rng.
  pose proof (draw_normal_length rng standard_normal
                (to_float loc) (to_float scale) n (gen w)) as L.
  pose proof (draw_normal_state (to_float loc) (to_float scale) n (gen w)) as G.
  destruct (draw_normal _ _ _ _ n (gen w)) as [a g]. simpl in *. subst g.
  now exists a.
Qed.

(** X3. The generator takes the scam branch exactly when the lowered text
    contains one of the eight keywords; it then leaves the random source
    advanced by 2 * 32000 draws, and by 32000 draws otherwise. It makes no
    inference. *)
Theorem generate_consumes_draws (text : string) (w : world rng) :
  let scam_like :=
    existsb (fun keyword => contains (lower keyword) (lower text)) scam_keywords in
  let n := Z.to_nat audio_length in
  exists audio,
    generate_synthetic_audio_from_text lower rng standard_normal np_sin np_exp
      text w
    = (inr audio,
       {| gen := if scam_like
                 then skip_draws standard_normal n
                        (skip_draws standard_normal n (gen w))
                 else skip_draws standard_normal n (gen w);
          inferences := inferences w |}).
Proof.
  cbv zeta. unfold generate_synthetic_audio_from_text. cbv zeta.
  rewrite filter_nonempty_existsb.
  generalize (Z.to_nat audio_length). intros n.
  destruct (existsb _ scam_keywords).
  - unfold bind.
    destruct (np_random_normal_state (PyInt 0) (PyFloat (B64.lit 0.3%float)) n w)
      as [base [-> Lbase]].
    edestruct (np_binop_same_length B64.mul) as [artifacts [-> Lart]]; [|simpl].
    { autorewrite with np_length. reflexivity. }
    autorewrite with np_length in Lart.
    destruct (np_iadd_same_length base artifacts) as [base1 [-> L1]];
      [congruence|simpl].
    match goal with
    | |- context [np_random_normal _ _ _ _ n ?w1] =>
        destruct (np_random_normal_state (PyInt 0) (PyInt 1) n w1)
          as [noise [-> Lnoise]]
    end.
    destruct (np_iadd_same_length base1
                (np_scale (PyFloat (B64.lit 0.05%float)) noise))
      as [base2 [-> L2]]; [autorewrite with np_length; congruence|simpl].
    now exists base2.
  - unfold bind.
    destruct (np_random_normal_state (PyInt 0) (PyFloat (B64.lit 0.15%float)) n w)
      as [base [-> Lbase]].
    edestruct (np_iadd_same_length base) as [base1 [-> L1]]; [|simpl].
    { autorewrite with np_length. congruence. }
    now exists base1.
Qed.

End GeneratorDraws.

(** ** Range of the substitute classifier's logits *)

Lemma of_int_5 : F32.of_int 5 = S754_finite false 10485760 (-21).
Proof. vm_compute. reflexivity. Qed.

Lemma of_int_2 : F32.of_int 2 = S754_finite false 8388608 (-22).
Proof. vm_compute. reflexivity. Qed.

Lemma has_sign_not_nan (sx : bool) (x : spec_float) :
  has_sign sx x = true -> is_nan x = false.
Proof. destruct x; simpl; auto; discriminate. Qed.

(** A value that is not a NaN, times a finite constant, is not a NaN. *)
Lemma SFmul_finite_not_nan (prec emax : Z) (x : spec_float) (s : bool)
    (m : positive) (e : Z) :
  is_nan x = false -> is_nan (SFmul prec emax x (S754_finite s m e)) = false.
Proof.
  destruct x as [sx|sx| |sx mx ex]; simpl; try reflexivity; try discriminate.
  intros _. apply (has_sign_not_nan (xorb sx s)).
  apply binary_round_aux_sign. lia.
Qed.

(** A value that is not a NaN, minus a finite constant, is not a NaN. *)
Lemma SFsub_finite_not_nan (prec emax : Z) (x : spec_float) (s : bool)
    (m : positive) (e : Z) :
  is_nan x = false -> is_nan (SFsub prec emax x (S754_finite s m e)) = false.
Proof.
  destruct x as [sx|sx| |sx mx ex]; simpl; try reflexivity; try discriminate.
  intros _. unfold binary_normalize.
  destruct (_ - _) as [|p|p]; [reflexivity| |].
  - apply (has_sign_not_nan false), binary_round_sign.
  - apply (has_sign_not_nan true), binary_round_sign.
Qed.

(** [torch.clamp] keeps every value that is not a NaN between its bounds. *)
Lemma torch_clamp_bounds (x lo hi : spec_float) :
  is_nan x = false ->
  SFleb lo lo = true -> SFleb lo hi = true -> SFleb hi hi = true ->
  SFleb lo (torch_clamp x lo hi) = true /\ SFleb (torch_clamp x lo hi) hi = true.
Proof.
  intros Hx Hlo Hlohi Hhi.
  assert (Nlo : is_nan lo = false) by (destruct lo; auto; discriminate).
  assert (Nhi : is_nan hi = false) by (destruct hi; auto; discriminate).
  unfold torch_clamp, F32.ltb.
  destruct x as [sx|sx| |sx mx ex]; try discriminate;
    match goal with
    | |- context [SFltb ?x lo] =>
        destruct (SFltb x lo) eqn:L1; [auto|];
        destruct (SFltb hi x) eqn:L2; [auto|];
        split; apply SFleb_of_ltb_false; auto
    end.
Qed.

Section MockRange.

Variable rng : Type.
Variable torch_randn : nat -> nat -> rng -> tensor * rng.
Variable torch_var : list spec_float -> spec_float.

(** X4. For every waveform of the batch the substitute classifier returns
    a row of two logits. When the variance is not a NaN the spoof logit lies
    between -2 and 3; when it is a NaN both logits are NaN. *)
Theorem mock_logit_range (audio_tensor : tensor) (w : world rng) :
  exists features logits w',
    MockAASISTModel_call rng torch_randn torch_var audio_tensor w
    = (inr (features, logits), w')
    /\ List.length logits = List.length audio_tensor
    /\ forall i row, nth_error audio_tensor i = Some row ->
         exists bonafide spoof,
           nth_error logits i = Some [bonafide; spoof]
           /\ (is_nan (torch_var row) = false ->
               SFleb (F32.of_int (-2)) spoof = true
               /\ SFleb spoof (F32.of_int 3) = true)
           /\ (is_nan (torch_var row) = true ->
               bonafide = S754_nan /\ spoof = S754_nan).
Proof.
  destruct (mock_call_logits rng torch_randn torch_var audio_tensor w)
    as [features [w' [E _]]].
  eexists features, _, w'. split; [exact E|].
  split; [apply length_map|].
  intros i row Hrow. rewrite nth_error_map, Hrow. simpl.
  eexists _, _. split; [reflexivity|]. split.
  - intros Hv. unfold spec_spoof_logit.
    apply torch_clamp_bounds; try (vm_compute; reflexivity).
    unfold F32.sub, F32.mul. rewrite of_int_5, of_int_2.
    now apply SFsub_finite_not_nan, SFmul_finite_not_nan.
  - intros Hv. destruct (torch_var row); try discriminate.
    split; reflexivity.
Qed.

End MockRange.

(** ** Construction, detection and the command line *)

Section Lifecycle.

Variable lower : string -> string.
Variable rng : Type.
Variable standard_normal : rng -> spec_float * rng.
Variable torch_randn : nat -> nat -> rng -> tensor * rng.
Variables np_sin np_exp : spec_float -> spec_float.
Variable torch_var : list spec_float -> spec_float.
Variable softmax_entry : list spec_float -> spec_float -> spec_float.
Variable network : Type.
Variable forward : network -> tensor -> string + (tensor * tensor).
Variables TORCH_AVAILABLE AASIST_AVAILABLE : bool.
Variable load_checkpoint : string -> option string -> load_outcome network.
Variable cuda_is_available : bool.
Variables sys_version os_getcwd : string.
Variable aasist_path_exists : bool.

Local Abbreviation detect :=
  (detect_deepfake lower rng standard_normal torch_randn np_sin np_exp
     torch_var softmax_entry network forward).
Local Abbreviation generate :=
  (generate_synthetic_audio_from_text lower rng standard_normal np_sin np_exp).
Local Abbreviation init :=
  (AASISTBridge__init__ network TORCH_AVAILABLE AASIST_AVAILABLE load_checkpoint).
Local Abbreviation run_main :=
  (main lower rng standard_normal torch_randn np_sin np_exp torch_var
     softmax_entry network forward TORCH_AVAILABLE AASIST_AVAILABLE
     load_checkpoint cuda_is_available sys_version os_getcwd aasist_path_exists).
Local Abbreviation call :=
  (call_model rng torch_randn torch_var network forward).

(** *** Construction *)

(** X5. A constructed bridge is in one of three states. Without torch it is
    not loaded and has no model. With torch it holds the trained network
    exactly when AASIST is importable, a model path other than the empty
    string and "null" was given and the checkpoint loaded; in every other
    case, whatever went wrong, it holds the substitute classifier. *)
Theorem init_states (model_path config_path : option string) :
  let self := init model_path config_path in
  (TORCH_AVAILABLE = false
   /\ self = {| model := None; model_loaded := false; use_mock := false |})
  \/ (TORCH_AVAILABLE = true /\ AASIST_AVAILABLE = true
      /\ exists path net,
           model_path = Some path /\ path <> ""%string /\ path <> "null"%string
           /\ load_checkpoint path config_path = StateLoaded network net
           /\ self = {| model := Some (Real net); model_loaded := true;
                        use_mock := false |})
  \/ (TORCH_AVAILABLE = true
      /\ self = {| model := Some Mock; model_loaded := true; use_mock := true |}
      /\ (AASIST_AVAILABLE = false
          \/ model_path = None \/ model_path = Some ""%string
          \/ model_path = Some "null"%string
          \/ exists path,
               model_path = Some path
               /\ (load_checkpoint path config_path = CheckpointMissing network
                   \/ load_checkpoint path config_path = LoadRaised network))).
Proof.
  cbv zeta. unfold AASISTBridge__init__, load_model, load_mock_model.
  destruct TORCH_AVAILABLE; [|left; split; [reflexivity|]].
  2:{ destruct model_path as [path|]; [|reflexivity].
      now destruct (negb (String.eqb path "") && negb (String.eqb path "null")). }
  right. destruct model_path as [path|]; [|right; simpl; tauto].
  destruct (String.eqb path "") eqn:E1.
  { apply String.eqb_eq in E1. subst. right. simpl. tauto. }
  destruct (String.eqb path "null") eqn:E2.
  { apply String.eqb_eq in E2. subst. right. simpl. tauto. }
  apply String.eqb_neq in E1, E2. simpl.
  destruct AASIST_AVAILABLE; simpl; [|right; tauto].
  destruct (load_checkpoint path config_path) as [net| |] eqn:L.
  - left. repeat split. now exists path, net.
  - right. repeat split. do 4 right. exists path. auto.
  - right. repeat split. do 4 right. exists path. auto.
Qed.

(** *** Detection *)

(** Every call of the classifier is counted, whether it returns or raises. *)
Lemma call_counts_one (self : AASISTBridge network) (x : tensor)
    (w : world rng) :
  inferences (snd (call self x w)) = S (inferences w).
Proof.
  unfold call_model.
  rewrite (bind_inr rng (count_inference rng) _ w _ tt eq_refl).
  destruct (model self) as [[|net]|].
  - destruct (mock_call_logits rng torch_randn torch_var x
                {| gen := gen w; inferences := S (inferences w) |})
      as [features [w' [-> I]]].
    exact I.
  - now destruct (forward net x).
  - reflexivity.
Qed.

(** A detection on a loaded bridge: one waveform, one call, one result. *)
Lemma detect_loaded_trace (self : AASISTBridge network) (text : string)
    (w : world rng) :
  model_loaded self = true ->
  exists audio w1,
    generate text w = (inr audio, w1)
    /\ detect self text w
       = (inr (result_of_call softmax_entry (use_mock self)
                 (analyze_text_patterns lower text)
                 (fst (call self [map F32.round audio] w1))),
          snd (call self [map F32.round audio] w1))
    /\ inferences (snd (call self [map F32.round audio] w1)) = S (inferences w).
Proof.
  intros H.
  destruct (generate_spec lower rng standard_normal np_sin np_exp text w)
    as [audio [w1 [Eg [_ I1]]]].
  exists audio, w1. split; [exact Eg|]. split.
  2:{ rewrite call_counts_one. congruence. }
  unfold detect_deepfake. rewrite H.
  change (negb true) with false. cbv iota. unfold try_except.
  rewrite (bind_inr rng _ _ _ _ _ Eg). cbv zeta.
  destruct (call self [map F32.round audio] w1) as [[e|out] w2] eqn:Ec.
  { now rewrite (bind_inl rng _ _ _ _ _ Ec). }
  rewrite (bind_inr rng _ _ _ _ _ Ec). simpl fst. simpl snd.
  unfold result_of_call.
  destruct (tensor_get (F_softmax softmax_entry (snd out)) 0 1) as [s|] eqn:Es.
  2:{ now rewrite (bind_inl rng _ _ _ _ _ (item_none rng _ _ _ w2 Es)). }
  rewrite (bind_inr rng _ _ _ _ _ (item_some rng _ _ _ w2 _ Es)).
  destruct (tensor_get (F_softmax softmax_entry (snd out)) 0 0) as [b|] eqn:Eb.
  2:{ now rewrite (bind_inl rng _ _ _ _ _ (item_none rng _ _ _ w2 Eb)). }
  now rewrite (bind_inr rng _ _ _ _ _ (item_some rng _ _ _ w2 _ Eb)).
Qed.

Lemma result_of_call_method (mock : bool) (t : pynum)
    (outcome : string + (tensor * tensor)) :
  let r := result_of_call softmax_entry mock t outcome in
  (lookup "method" r = Some (VStr "inference_error")
   /\ lookup "is_deepfake" r = Some (VBool false)
   /\ lookup "error" r <> None /\ lookup "model_type" r = None)
  \/ (lookup "method" r
      = Some (VStr (if mock then "aasist_mock_model_with_text_analysis"
                    else "aasist_neural_network_with_text_analysis"))
      /\ lookup "error" r = None
      /\ lookup "model_type" r = Some (VStr (if mock then "mock" else "real"))).
Proof.
  cbv zeta. unfold result_of_call.
  assert (Err : forall e,
             lookup "method" (inference_error_result e)
             = Some (VStr "inference_error")
             /\ lookup "is_deepfake" (inference_error_result e) = Some (VBool false)
             /\ lookup "error" (inference_error_result e) <> None
             /\ lookup "model_type" (inference_error_result e) = None)
    by (intros e; repeat split; discriminate).
  destruct outcome as [msg|out]; [left; apply Err|].
  destruct (tensor_get _ 0 1) as [s|]; [|left; apply Err].
  destruct (tensor_get _ 0 0) as [b|]; [|left; apply Err].
  right. destruct mock; repeat split.
Qed.

(** X6. [detect_deepfake] never raises. Its result always names one of four
    methods; a result with method "model_not_loaded" or "inference_error"
    carries an error message, a verdict of false and no model_type, and a
    result of a completed inference carries a model_type and no error. *)
Theorem detect_never_raises (self : AASISTBridge network) (text : string)
    (w : world rng) :
  exists r w' method,
    detect self text w = (inr r, w')
    /\ lookup "method" r = Some (VStr method)
    /\ ((In method ["model_not_loaded"; "inference_error"]%string
         /\ lookup "is_deepfake" r = Some (VBool false)
         /\ lookup "error" r <> None /\ lookup "model_type" r = None)
        \/ (In method ["aasist_mock_model_with_text_analysis";
                       "aasist_neural_network_with_text_analysis"]%string
            /\ lookup "error" r = None /\ lookup "model_type" r <> None)).
Proof.
  destruct (model_loaded self) eqn:L.
  - destruct (detect_loaded_trace self text w L) as [audio [w1 [_ [E _]]]].
    destruct (result_of_call_method (use_mock self)
                (analyze_text_patterns lower text)
                (fst (call self [map F32.round audio] w1)))
      as [[Hm [Hv [He Ht]]]|[Hm [He Ht]]];
      eexists _, _, _; (split; [exact E|]); (split; [exact Hm|]).
    + left. simpl. tauto.
    + right. rewrite Ht.
      destruct (use_mock self); simpl; repeat split; auto; discriminate.
  - exists not_loaded_result, w, "model_not_loaded"%string.
    split; [now apply detect_not_loaded|].
    split; [reflexivity|]. left. simpl. repeat split; auto; discriminate.
Qed.

(** X7. A detection invokes the classifier exactly once on a loaded bridge,
    also when the inference fails, and never on a bridge that is not
    loaded. *)
Theorem detect_counts_inferences (self : AASISTBridge network) (text : string)
    (w : world rng) :
  inferences (snd (detect self text w))
  = if model_loaded self then S (inferences w) else inferences w.
Proof.
  destruct (model_loaded self) eqn:L.
  - destruct (detect_loaded_trace self text w L) as [audio [w1 [_ [E I]]]].
    rewrite E. exact I.
  - now rewrite (detect_not_loaded lower rng standard_normal torch_randn
                   np_sin np_exp torch_var softmax_entry network forward
                   self text w L).
Qed.

(** X8. When the forward pass of the trained network raises, the detection
    does not: it returns the inference_error result with the message of the
    exception, verdict false and confidence 0.0. *)
Theorem failing_network_is_reported (self : AASISTBridge network)
    (net : network) (msg text : string) (w : world rng) :
  model_loaded self = true -> model self = Some (Real net) ->
  (forall x, forward net x = inl msg) ->
  exists w',
    detect self text w
    = (inr [ ("is_deepfake", VBool false);
             ("confidence", VNum (PyFloat (B64.lit 0.0%float)));
             ("method", VStr "inference_error");
             ("error", VStr msg) ], w').
Proof.
  intros L Hm Hf.
  destruct (detect_loaded_trace self text w L) as [audio [w1 [_ [E _]]]].
  eexists. rewrite E. f_equal. f_equal.
  unfold call_model.
  rewrite (bind_inr rng (count_inference rng) _ w1 _ tt eq_refl).
  rewrite Hm, Hf. reflexivity.
Qed.

(** X9. When the trained network returns logits with at least two entries in
    the first row, the detection completes with model_type "real" and
    method "aasist_neural_network_with_text_analysis", and the two
    probabilities shown are the softmax entries of the second and of the
    first logit. When the first row has fewer than two entries, or there is
    no row, the result is inference_error. *)
Theorem real_network_result (self : AASISTBridge network) (net : network)
    (text : string) (w : world rng) (features logits : tensor) :
  model_loaded self = true -> model self = Some (Real net) ->
  use_mock self = false ->
  (forall x, forward net x = inr (features, logits)) ->
  exists r w',
    detect self text w = (inr r, w')
    /\ match logits with
       | (bonafide :: spoof :: more) :: _ =>
           let row := bonafide :: spoof :: more in
           lookup "model_type" r = Some (VStr "real")
           /\ lookup "method" r
              = Some (VStr "aasist_neural_network_with_text_analysis")
           /\ lookup "audio_spoof_prob" r
              = Some (VNum (PyFloat (f32_to_b64 (softmax_entry row spoof))))
           /\ lookup "audio_bonafide_prob" r
              = Some (VNum (PyFloat (f32_to_b64 (softmax_entry row bonafide))))
       | _ => r = inference_error_result "index out of range"
       end.
Proof.
  intros L Hm Hu Hf.
  destruct (detect_loaded_trace self text w L) as [audio [w1 [_ [E _]]]].
  eexists _, _. split; [exact E|].
  unfold call_model.
  rewrite (bind_inr rng (count_inference rng) _ w1 _ tt eq_refl).
  rewrite Hm, Hf, Hu. unfold ret. simpl fst. unfold result_of_call. simpl snd.
  destruct logits as [|[|bonafide [|spoof more]] rest]; try reflexivity.
  simpl. repeat split.
Qed.

(** *** The command line *)

(** X10. [main] never raises: every argument list yields one object. With
    no command or an unknown command it is the error object, and with
    [status] the capability report (no CUDA without torch); in these three
    cases the state is untouched. With [test] and [detect] it is the result
    of one detection, and at most one inference is made. *)
Theorem main_dispatch (argv : list string) (w : world rng) :
  exists r w',
    run_main argv w = (inr r, w')
    /\ (inferences w' = inferences w \/ inferences w' = S (inferences w))
    /\ ((List.length argv < 2)%nat ->
        r = [ ("error", VStr "No command provided") ] /\ w' = w)
    /\ ((2 <= List.length argv)%nat ->
        let command := nth 1 argv ""%string in
        (command = "status"%string ->
         w' = w
         /\ lookup "torch_available" r = Some (VBool TORCH_AVAILABLE)
         /\ lookup "cuda_available" r
            = Some (VBool (TORCH_AVAILABLE && cuda_is_available)))
        /\ (~ In command ["test"; "detect"; "status"]%string ->
            r = [ ("error", VStr ("Unknown command: " ++ command)) ] /\ w' = w)
        /\ (In command ["test"; "detect"]%string -> lookup "method" r <> None)).
Proof.
  unfold main, argv_at.
  destruct (List.length argv <? 2)%nat eqn:Len.
  { apply Nat.ltb_lt in Len. eexists _, w. split; [reflexivity|].
    split; [now left|]. split; [auto|]. lia. }
  apply Nat.ltb_ge in Len. cbv zeta.
  set (command := nth 1 argv ""%string).
  assert (D : forall self text,
             exists r w',
               detect self text w = (inr r, w')
               /\ (inferences w' = inferences w
                   \/ inferences w' = S (inferences w))
               /\ lookup "method" r <> None).
  { intros self text.
    destruct (detect_never_raises self text w) as [r [w' [m [E [Hm _]]]]].
    exists r, w'. split; [exact E|]. split.
    - pose proof (detect_counts_inferences self text w) as I.
      rewrite E in I. simpl in I. destruct (model_loaded self); auto.
    - rewrite Hm. discriminate. }
  destruct (String.eqb command "test") eqn:Ct.
  { apply String.eqb_eq in Ct.
    destruct (D (init None None) "Hello, how are you today?"%string)
      as [r [w' [E [I M]]]].
    exists r, w'. split; [exact E|]. split; [exact I|]. split; [lia|].
    intros _. rewrite Ct. split; [discriminate|].
    split; [intros N; elim N; simpl; tauto|]. intros _. exact M. }
  destruct (String.eqb command "detect") eqn:Cd.
  { apply String.eqb_eq in Cd.
    match goal with
    | |- context [detect_deepfake _ _ _ _ _ _ _ _ _ _ ?self ?text w] =>
        destruct (D self text) as [r [w' [E [I M]]]]
    end.
    exists r, w'. split; [exact E|]. split; [exact I|]. split; [lia|].
    intros _. rewrite Cd. split; [discriminate|].
    split; [intros N; elim N; simpl; tauto|]. intros _. exact M. }
  destruct (String.eqb command "status") eqn:Cs.
  { apply String.eqb_eq in Cs.
    eexists _, w. split; [reflexivity|]. split; [now left|]. split; [lia|].
    intros _. rewrite Cs. split; [|split].
    - intros _. repeat split.
    - intros N. elim N. simpl. tauto.
    - intros [X|[X|[]]]; discriminate. }
  apply String.eqb_neq in Ct, Cd, Cs.
  eexists _, w. split; [reflexivity|]. split; [now left|]. split; [lia|].
  intros _. split; [congruence|]. split; [auto|].
  intros [X|[X|[]]]; congruence.
Qed.

(** X11. The [test] command is the [detect] command with the model path
    "null" and the fixed phrase: both construct the bridge with no path and
    run the same detection, whatever further arguments [test] is given. *)
Theorem test_is_detect_null (script script' : string) (extra : list string)
    (w : world rng) :
  run_main (script :: "test"%string :: extra) w
  = run_main [script'; "detect"; "null"; "Hello, how are you today?"]%string w.
Proof. reflexivity. Qed.

End Lifecycle.

(** ** The lifecycle on concrete inputs *)

(** X8 on a bridge whose checkpoint loads a network that raises. *)
Lemma failing_network_is_reported_witness :
  exists w',
    DemoReal.detect (Some "broken.pth"%string) "Hello" Demo.start
    = (inr [ ("is_deepfake", VBool false);
             ("confidence", VNum (PyFloat (B64.lit 0.0%float)));
             ("method", VStr "inference_error");
             ("error", VStr "forward failed") ], w').
Proof.
  unfold DemoReal.detect.
  apply (failing_network_is_reported ascii_lower Demo.rng Demo.standard_normal
           Demo.torch_randn Demo.np_sin Demo.np_exp Demo.torch_var
           Demo.softmax_entry DemoReal.network DemoReal.forward
           (DemoReal.bridge (Some "broken.pth"%string)) true
           "forward failed" "Hello" Demo.start).
  - reflexivity.
  - reflexivity.
  - intros x. reflexivity.
Defined.

(** X9 on a bridge whose checkpoint loads a network that answers (0, 0). *)
Lemma real_network_result_witness :
  exists r w',
    DemoReal.detect (Some "model.pth"%string) "Hello" Demo.start = (inr r, w')
    /\ lookup "model_type" r = Some (VStr "real")
    /\ lookup "method" r = Some (VStr "aasist_neural_network_with_text_analysis").
Proof.
  unfold DemoReal.detect.
  destruct (real_network_result ascii_lower Demo.rng Demo.standard_normal
              Demo.torch_randn Demo.np_sin Demo.np_exp Demo.torch_var
              Demo.softmax_entry DemoReal.network DemoReal.forward
              (DemoReal.bridge (Some "model.pth"%string)) false
              "Hello" Demo.start [] [[S754_zero false; S754_zero false]]
              eq_refl eq_refl eq_refl (fun x => eq_refl))
    as [r [w' [E [Ht [Hm _]]]]].
  exists r, w'. auto.
Defined.

(** The command line in the environment where the checkpoint loads. *)
Example main_unknown_command :
  DemoReal.main ["aasist_bridge.py"; "foo"]%string Demo.start
  = (inr [ ("error", VStr "Unknown command: foo") ], Demo.start).
Proof. reflexivity. Qed.

Example main_no_command :
  DemoReal.main ["aasist_bridge.py"]%string Demo.start
  = (inr [ ("error", VStr "No command provided") ], Demo.start).
Proof. reflexivity. Qed.
